(** * gitpro: anomaly detection and KPI scorecard of the analysis pipeline

    A shallow embedding of
    - [backend/services/kpi_calculator.py]   (the KPI aggregator),
    - [backend/services/anomaly_detector.py] (feature vectors, detection,
      attribution),
    - the unsupported-extension path of [backend/services/nlp_analyzer.py]
      and the batch loop of [backend/routes/repos.py].

    Numbers.  Python [int]s are [Z] or [nat]; Python [float]s are idealised
    as exact rationals [Q] (no rounding error, no NaN, no infinities), and
    equality of computed rationals is [Qeq] ([==]) unless the value went
    through [round], which returns a reduced fraction.

    Dictionaries.  The per-file [metrics], [naming] and [semantic] dicts and
    the KPI category dicts are [gmap string Q]; [d.get(k, 0)] is
    [get0 d k]. Strings are byte strings; [str.lower] is ASCII lowering. *)

From Stdlib Require Import QArith Qround Qabs Qminmax Lqa ZArith Lia Ascii String List Sorted.
From stdpp Require Import gmap strings list pretty.

Local Open Scope Z_scope.
Local Open Scope Q_scope.
Local Open Scope string_scope.
Local Open Scope list_scope.

(** ** Python and numpy builtins *)

Module Py.

(** [int(x)] on a float: truncation toward zero. *)
Definition int (q : Q) : Z := Z.quot (Qnum q) (Zpos (Qden q)).

(** Nearest integer, ties to the even one. *)
Definition round_half_even (q : Q) : Z :=
  let f := Qfloor q in
  match Qcompare (q - inject_Z f) (1 # 2) with
  | Lt => f
  | Gt => (f + 1)%Z
  | Eq => if Z.even f then f else (f + 1)%Z
  end.

(** [round(x, ndigits)]. *)
Definition round (q : Q) (ndigits : nat) : Q :=
  let scale := inject_Z (10 ^ Z.of_nat ndigits) in
  Qred (inject_Z (round_half_even (q * scale)) / scale).

(** [min(a, b)] and [max(a, b)] on numbers; on a tie Python returns the
    first argument, which is [==] to the second. *)
Definition min (a b : Q) : Q := if Qle_bool a b then a else b.
Definition max (a b : Q) : Q := if Qle_bool b a then a else b.

(** [a > b] and [a < b] as tests. *)
Definition gt (a b : Q) : bool := negb (Qle_bool a b).
Definition lt (a b : Q) : bool := negb (Qle_bool b a).

(** [sum(xs)]. *)
Definition sum (xs : list Q) : Q := fold_left Qplus xs 0.

(** [np.mean(xs)] of a non-empty list. *)
Definition np_mean (xs : list Q) : Q := sum xs / inject_Z (Z.of_nat (length xs)).

(** Truthiness of a string: non-empty. *)
Definition truthy (s : string) : bool :=
  match s with EmptyString => false | String _ _ => true end.

End Py.

(** [d.get(k, 0)] on a numeric dict. *)
Definition get0 (d : gmap string Q) (k : string) : Q := default 0 (d !! k).

(** [k in d]. *)
Definition has_key (d : gmap string Q) (k : string) : bool := bool_decide (is_Some (d !! k)).

(** [Z] and [nat] counters stored in a numeric dict. *)
Definition ofZ (z : Z) : Q := inject_Z z.
Definition ofnat (n : nat) : Q := inject_Z (Z.of_nat n).

(** ** Activity summaries (GitHub API objects) *)

(** [commit['commit']['author']['name']]; every level may be absent, as
    [commit.get('commit', {}).get('author', {}).get('name')] allows. *)
Record git_author := { name : option string; author_date : option string }.
Record git_commit := { author : option git_author; message : option string }.
Record commit_summary := { commit : option git_commit }.

Record pr_summary := {
  number : Z;
  title : string;
  state : string;
  merged_at : option string
}.

(** [commit.get('commit', {}).get('author', {}).get('name')] *)
Definition commit_author_name (c : commit_summary) : option string :=
  g ← commit c; a ← author g; name a.

(** [if x:] for a value that is [None] or a string. *)
Definition truthy_opt (o : option string) : bool :=
  match o with Some s => Py.truthy s | None => false end.

(** [if xs:] for a value that is [None] or a list; [xs or []]. *)
Definition truthy_list {A} (o : option (list A)) : bool :=
  match o with Some (_ :: _) => true | _ => false end.
Definition or_nil {A} (o : option (list A)) : list A := default [] o.

(** ** kpi_calculator.py: productivity *)

(** The loop filling [contributors]. *)
Definition contributors_of (commits : option (list commit_summary)) : gset string :=
  if truthy_list commits then
    fold_left (fun (acc : gset string) c =>
                 match commit_author_name c with
                 | Some a => if Py.truthy a then acc ∪ {[ a ]} else acc
                 | None => acc
                 end) (or_nil commits) ∅
  else ∅.

Definition _calculate_productivity_kpis
    (commits : option (list commit_summary)) (prs : option (list pr_summary))
    : gmap string Q :=
  if negb (truthy_list commits) && negb (truthy_list prs) then
    {[ "productivity_score" := 0; "commit_frequency" := 0; "pr_merge_rate" := 0;
       "avg_pr_size" := 0; "active_contributors" := 0 ]}
  else
    let commit_count := if truthy_list commits then length (or_nil commits) else 0%nat in
    let pr_count := if truthy_list prs then length (or_nil prs) else 0%nat in
    let merged_prs :=
      if truthy_list prs
      then length (filter (fun pr => truthy_opt (merged_at pr) = true) (or_nil prs))
      else 0%nat in
    let pr_merge_rate :=
      if (0 <? pr_count)%nat
      then (ofnat merged_prs / ofnat (Nat.max pr_count 1)) * 100
      else 0 in
    let contributors := contributors_of commits in
    let commit_score := Py.min 100 ((ofnat commit_count / 10) * 100) in
    let pr_score := if (0 <? pr_count)%nat then pr_merge_rate else 50 in
    let contributor_score := Py.min 100 ((ofnat (size contributors) / 5) * 100) in
    let productivity_score :=
      (commit_score * (4 # 10)) + (pr_score * (3 # 10)) + (contributor_score * (3 # 10)) in
    {[ "productivity_score" := Py.round productivity_score 1;
       "commit_frequency" := ofnat commit_count;
       "pr_merge_rate" := Py.round pr_merge_rate 1;
       "avg_pr_size" := 0;
       "active_contributors" := ofnat (size contributors) ]}.

(** ** Per-file analysis records (the dict built by [analyze_code_file])

    [analyze_code_file] sets the keys [filename], [metrics], [smells],
    [naming] and [documentation] unconditionally, so they are fields;
    [semantic] and [error] are set on some paths only. The numeric entries
    of a sub-dict are a [gmap string Q], so any of them may be missing; the
    two non-numeric entries are fields of their own. *)
Record analysis := {
  filename : string;
  metrics : gmap string Q;
  smells : list string;
  naming : gmap string Q;
  dominant_convention : option string;
  documentation : gmap string Q;
  semantic : option (gmap string Q);
  most_common_terms : option (list string);
  error : option string
}.

(** [if a.get('naming')] and [if a.get('semantic')]: a non-empty dict. *)
Definition naming_truthy (a : analysis) : bool :=
  negb (bool_decide (naming a = ∅)) || bool_decide (is_Some (dominant_convention a)).
Definition semantic_truthy (a : analysis) : bool :=
  match semantic a with
  | Some d => negb (bool_decide (d = ∅)) || bool_decide (is_Some (most_common_terms a))
  | None => false
  end.

(** Repository metadata; [calculate_kpis] receives it and does not read it. *)
Record repo_data := {
  repo_name : string;
  repo_description : option string;
  language : option string;
  stargazers_count : Z;
  forks_count : Z;
  open_issues_count : Z
}.

(** ** kpi_calculator.py: quality *)

Definition _calculate_quality_score (avg_complexity comment_ratio smell_density : Q) : Q :=
  let complexity_score :=
    if Py.gt avg_complexity 5 then Py.max 0 (100 - (avg_complexity - 5) * 10) else 100 in
  let complexity_score := Py.max 0 (Py.min 100 complexity_score) in
  let doc_score := Py.min 100 (comment_ratio * 300) in
  let smell_score := Py.max 0 (100 - smell_density * 5) in
  let smell_score := Py.max 0 (Py.min 100 smell_score) in
  (complexity_score * (4 # 10)) + (doc_score * (3 # 10)) + (smell_score * (3 # 10)).

(** [sum(len(a.get('smells', [])) for a in nlp_analyses)] *)
Definition total_smells_of (nlp_analyses : list analysis) : nat :=
  fold_left (fun n a => (n + length (smells a))%nat) nlp_analyses 0%nat.

(** [np.mean(xs) if xs else 0] *)
Definition mean_or_0 (xs : list Q) : Q :=
  match xs with [] => 0 | _ :: _ => Py.np_mean xs end.

Definition avg_complexity_of (nlp_analyses : list analysis) : Q :=
  mean_or_0 (map (fun a => get0 (metrics a) "avg_complexity")
                 (filter (fun a => has_key (metrics a) "avg_complexity" = true) nlp_analyses)).

Definition avg_comment_ratio_of (nlp_analyses : list analysis) : Q :=
  mean_or_0 (map (fun a => get0 (metrics a) "comment_ratio") nlp_analyses).

Definition total_lines_of (nlp_analyses : list analysis) : Q :=
  Py.sum (map (fun a => get0 (metrics a) "total_lines") nlp_analyses).

Definition smell_density_of (nlp_analyses : list analysis) : Q :=
  (ofnat (total_smells_of nlp_analyses) / Py.max (total_lines_of nlp_analyses) 1) * 1000.

Definition _calculate_quality_kpis (nlp_analyses : list analysis) : gmap string Q :=
  let total_lines := total_lines_of nlp_analyses in
  let total_smells := total_smells_of nlp_analyses in
  let avg_complexity := avg_complexity_of nlp_analyses in
  let avg_comment_ratio := avg_comment_ratio_of nlp_analyses in
  let smell_density := smell_density_of nlp_analyses in
  let quality_score := _calculate_quality_score avg_complexity avg_comment_ratio smell_density in
  {[ "quality_score" := Py.round quality_score 1;
     "avg_complexity" := Py.round avg_complexity 2;
     "code_smell_density" := Py.round smell_density 2;
     "documentation_coverage" := Py.round (avg_comment_ratio * 100) 1;
     "total_code_smells" := ofnat total_smells;
     "total_lines_of_code" := total_lines ]}.

(** ** kpi_calculator.py: maintainability *)

(** [sum(1 for a in nlp_analyses if a['metrics'].get('max_complexity', 0) > limit)] *)
Definition count_max_complexity_above (limit : Q) (nlp_analyses : list analysis) : nat :=
  length (filter (fun a => Py.gt (get0 (metrics a) "max_complexity") limit = true) nlp_analyses).

Definition _calculate_maintainability_kpis (nlp_analyses : list analysis) : gmap string Q :=
  let avg_mi :=
    mean_or_0 (map (fun a => get0 (metrics a) "maintainability_index")
                   (filter (fun a => has_key (metrics a) "maintainability_index" = true)
                           nlp_analyses)) in
  let avg_naming_consistency :=
    mean_or_0 (map (fun a => get0 (naming a) "consistency_score")
                   (filter (fun a => naming_truthy a = true) nlp_analyses)) in
  let avg_vocab_richness :=
    mean_or_0 (map (fun a => get0 (default ∅ (semantic a)) "vocabulary_richness")
                   (filter (fun a => semantic_truthy a = true) nlp_analyses)) in
  let total_smells := total_smells_of nlp_analyses in
  let high_complexity_files := count_max_complexity_above 10 nlp_analyses in
  let technical_debt_hours := (total_smells * 2 + high_complexity_files * 8)%nat in
  {[ "maintainability_index" := Py.round avg_mi 1;
     "naming_consistency" := Py.round (avg_naming_consistency * 100) 1;
     "vocabulary_richness" := Py.round (avg_vocab_richness * 100) 1;
     "technical_debt_hours" := ofnat technical_debt_hours;
     "technical_debt_days" := Py.round (ofnat technical_debt_hours / 8) 1 ]}.

(** ** kpi_calculator.py: security *)

Definition lower_ascii (c : ascii) : ascii :=
  let n := nat_of_ascii c in
  if (65 <=? n)%nat && (n <=? 90)%nat then ascii_of_nat (n + 32) else c.

(** [s.lower()] *)
Fixpoint lower (s : string) : string :=
  match s with
  | EmptyString => EmptyString
  | String c rest => String (lower_ascii c) (lower rest)
  end.

(** [needle in hay] on strings. *)
Fixpoint contains (needle hay : string) : bool :=
  String.prefix needle hay
  || match hay with
     | EmptyString => false
     | String _ rest => contains needle rest
     end.

Definition security_keywords : list string :=
  ["password"; "secret"; "token"; "api_key"; "private_key"].

(** [any(keyword in smell.lower() for keyword in security_keywords)] *)
Definition is_security_smell (smell : string) : bool :=
  existsb (fun keyword => contains keyword (lower smell)) security_keywords.

(** The two nested loops that increment [security_issues]. *)
Definition count_security_issues (nlp_analyses : list analysis) : nat :=
  fold_left (fun security_issues a =>
               fold_left (fun security_issues smell =>
                            if is_security_smell smell
                            then (security_issues + 1)%nat else security_issues)
                         (smells a) security_issues)
            nlp_analyses 0%nat.

Definition risk_score_of (security_issues high_complexity_count total_smells : nat) : Z :=
  Z.min 100 (Z.of_nat security_issues * 10 + Z.of_nat high_complexity_count * 5
             + Z.of_nat total_smells * 2).

Definition _calculate_security_kpis (nlp_analyses : list analysis) : gmap string Q :=
  let security_issues := count_security_issues nlp_analyses in
  let total_smells := total_smells_of nlp_analyses in
  let high_complexity_count := count_max_complexity_above 15 nlp_analyses in
  let risk_score := risk_score_of security_issues high_complexity_count total_smells in
  {[ "security_issue_count" := ofnat security_issues;
     "risk_score" := ofZ risk_score;
     "high_complexity_files" := ofnat high_complexity_count ]}.

(** ** kpi_calculator.py: summary and entry point *)

Record kpi_summary := {
  overall_health_score : Q;
  grade : string;
  analyzed_files : nat;
  timestamp : option string
}.

Record kpis := {
  quality : gmap string Q;
  maintainability : gmap string Q;
  productivity : gmap string Q;
  security : gmap string Q;
  summary : kpi_summary
}.

(** Reads [kpis['quality']['quality_score']] and
    [kpis['maintainability']['maintainability_index']]; both keys are set by
    the functions above. *)
Definition _calculate_overall_score (q m : gmap string Q) : Q :=
  let quality := get0 q "quality_score" in
  let maintainability := get0 m "maintainability_index" in
  let overall := (quality * (6 # 10)) + (maintainability * (4 # 10)) in
  Py.round overall 1.

Definition ge (a b : Q) : bool := Qle_bool b a.

Definition _score_to_grade (score : Q) : string :=
  if ge score 90 then "A"
  else if ge score 80 then "B"
  else if ge score 70 then "C"
  else if ge score 60 then "D"
  else "F".

Definition _empty_kpis : kpis :=
  {| quality := ∅; maintainability := ∅; productivity := ∅; security := ∅;
     summary := {| overall_health_score := 0; grade := "N/A"; analyzed_files := 0;
                   timestamp := None |} |}.

(** [now] is the string [datetime.utcnow().isoformat()] returns at the call. *)
Definition calculate_kpis (nlp_analyses : list analysis) (repo : repo_data)
    (commits : option (list commit_summary)) (prs : option (list pr_summary))
    (now : string) : kpis :=
  match nlp_analyses with
  | [] => _empty_kpis
  | _ :: _ =>
    let q := _calculate_quality_kpis nlp_analyses in
    let m := _calculate_maintainability_kpis nlp_analyses in
    let overall := _calculate_overall_score q m in
    {| quality := q;
       maintainability := m;
       productivity := _calculate_productivity_kpis commits prs;
       security := _calculate_security_kpis nlp_analyses;
       summary := {| overall_health_score := overall;
                     grade := _score_to_grade overall;
                     analyzed_files := length nlp_analyses;
                     timestamp := Some now |} |}
  end.

(** ** anomaly_detector.py *)

Abbreviation matrix := (list (list Q)).

(** The value [extract_features] stores in [self.feature_names]. *)
Definition feature_names : list string :=
  [ "total_lines"; "non_empty_lines"; "comment_lines"; "comment_ratio";
    "avg_complexity"; "max_complexity"; "maintainability_index";
    "halstead_difficulty"; "smell_count"; "naming_consistency";
    "vocabulary_richness"; "comment_meaningfulness" ].

(** One row of the feature matrix: the body of the loop of
    [extract_features]. *)
Definition file_features (a : analysis) : list Q :=
  let metrics := metrics a in
  let naming := naming a in
  let semantic := default ∅ (semantic a) in
  [ get0 metrics "total_lines";
    get0 metrics "non_empty_lines";
    get0 metrics "comment_lines";
    get0 metrics "comment_ratio";
    get0 metrics "avg_complexity";
    get0 metrics "max_complexity";
    get0 metrics "maintainability_index";
    get0 metrics "halstead_difficulty";
    ofnat (length (smells a));
    get0 naming "consistency_score";
    get0 semantic "vocabulary_richness";
    get0 semantic "comment_meaningfulness" ].

(** Returns the matrix and the new value of [self.feature_names]. *)
Definition extract_features (nlp_analyses : list analysis) : matrix * list string :=
  (map file_features nlp_analyses, feature_names).

(** [m[:, j]], and [np.mean(m, axis=0)] of a two-dimensional array. *)
Definition column (j : nat) (m : matrix) : list Q := map (fun row => nth j row 0) m.
Definition ncols (m : matrix) : nat := match m with [] => 0%nat | row :: _ => length row end.
Definition np_mean_axis0 (m : matrix) : list Q :=
  map (fun j => Py.np_mean (column j m)) (seq 0 (ncols m)).

(** f-string conversions: [{x:.nf}], [{x:.n%}] and [{int(x)}]. *)
Fixpoint zeros (n : nat) : string :=
  match n with O => "" | S k => "0" +:+ zeros k end.

Definition format_fixed (ndigits : nat) (x : Q) : string :=
  let scale := (10 ^ Z.of_nat ndigits)%Z in
  let r := Py.round_half_even (Qabs x * inject_Z scale) in
  let digits := pretty (r mod scale)%Z in
  (if Py.lt x 0 then "-" else "")
  +:+ pretty (r / scale)%Z +:+ "."
  +:+ zeros (ndigits - String.length digits) +:+ digits.

Definition format_percent (ndigits : nat) (x : Q) : string :=
  format_fixed ndigits (x * 100) +:+ "%".

Definition format_int (x : Q) : string := pretty (Py.int x).

Module Anomaly.
Record key_metrics := {
  complexity : Q;
  lines : Z;
  comment_ratio : Q;
  smells : Z
}.
Record report := {
  file : string;
  score : Z;
  types : list string;
  description : string;
  metrics : key_metrics
}.
End Anomaly.

(** One iteration of the attribution loop: the tag and the reason it
    appends, if any. *)
Definition attribute (feature_name : string) (value mean std : Q) : option (string * string) :=
  if Py.gt std 0 then
    let z_score := Qabs ((value - mean) / std) in
    if Py.gt z_score 2 then
      if String.eqb feature_name "avg_complexity" && Py.gt value mean then
        Some ("complexity",
              "High complexity (" +:+ format_fixed 1 value +:+ " vs avg "
              +:+ format_fixed 1 mean +:+ ")")
      else if String.eqb feature_name "total_lines" && Py.gt value mean then
        Some ("size",
              "Large file (" +:+ format_int value +:+ " lines vs avg "
              +:+ format_int mean +:+ ")")
      else if String.eqb feature_name "comment_ratio" && Py.lt value mean then
        Some ("documentation",
              "Low documentation (" +:+ format_percent 1 value +:+ " vs avg "
              +:+ format_percent 1 mean +:+ ")")
      else if String.eqb feature_name "naming_consistency" && Py.lt value mean then
        Some ("naming",
              "Inconsistent naming (score " +:+ format_fixed 2 value +:+ " vs avg "
              +:+ format_fixed 2 mean +:+ ")")
      else if String.eqb feature_name "smell_count" && Py.gt value mean then
        Some ("code_smells",
              "Multiple code smells (" +:+ format_int value +:+ " detected)")
      else None
    else None
  else None.

(** [zip(names, values, means, stds)], cut at the shortest. *)
Fixpoint zip4 {A B C D} (l1 : list A) (l2 : list B) (l3 : list C) (l4 : list D)
    : list (A * B * C * D) :=
  match l1, l2, l3, l4 with
  | a :: l1, b :: l2, c :: l3, d :: l4 => (a, b, c, d) :: zip4 l1 l2 l3 l4
  | _, _, _, _ => []
  end.

Fixpoint zip3 {A B C} (l1 : list A) (l2 : list B) (l3 : list C) : list (A * B * C) :=
  match l1, l2, l3 with
  | a :: l1, b :: l2, c :: l3 => (a, b, c) :: zip3 l1 l2 l3
  | _, _, _ => []
  end.

(** ['; '.join(reasons)] *)
Fixpoint join (sep : string) (xs : list string) : string :=
  match xs with
  | [] => ""
  | [x] => x
  | x :: rest => x +:+ sep +:+ join sep rest
  end.

(** [anomalies.sort(key=lambda x: x['score'], reverse=True)]: a stable sort,
    highest score first, equal scores in their original order. *)
Fixpoint insert_desc (x : Anomaly.report) (l : list Anomaly.report) : list Anomaly.report :=
  match l with
  | [] => [x]
  | y :: rest =>
    if (Anomaly.score y <=? Anomaly.score x)%Z then x :: l else y :: insert_desc x rest
  end.

Definition sort_by_score_desc (l : list Anomaly.report) : list Anomaly.report :=
  foldr insert_desc [] l.

Definition normalize_score (anomaly_score : Q) : Z :=
  let normalized_score := Py.int ((1 - (anomaly_score + (1 # 2))) * 100) in
  Z.max 0 (Z.min 100 normalized_score).

Section Detector.

(** scikit-learn and numpy are outside the repository. The fitted scaler
    and forest are functions of the matrix they were fitted on
    ([random_state=42] makes the forest deterministic); [np.std] of a
    column needs a square root and is taken as given. *)
Variable scaler_fit_transform : matrix -> matrix.
Variable model_fit_predict : matrix -> list Z.
Variable model_score_samples : matrix -> list Q.
Variable np_std : list Q -> Q.

(** [np.std(m, axis=0)] *)
Definition np_std_axis0 (m : matrix) : list Q :=
  map (fun j => np_std (column j m)) (seq 0 (ncols m)).

(** [names] is [self.feature_names]. [file_features[k]] is
    [nth k file_features 0]: on the path from [detect_anomalies] the row
    has 12 entries, so the index is always in range. *)
Definition _create_anomaly_report (names : list string) (a : analysis)
    (file_features : list Q) (anomaly_score : Q) (all_features : matrix)
    : Anomaly.report :=
  let normalized_score := normalize_score anomaly_score in
  let feature_means := np_mean_axis0 all_features in
  let feature_stds := np_std_axis0 all_features in
  let found :=
    omap (fun '(feature_name, value, mean, std) => attribute feature_name value mean std)
         (zip4 names file_features feature_means feature_stds) in
  let anomaly_types := map fst found in
  let reasons := map snd found in
  {| Anomaly.file := filename a;
     Anomaly.score := normalized_score;
     Anomaly.types := match anomaly_types with [] => ["general"] | _ :: _ => anomaly_types end;
     Anomaly.description :=
       match reasons with
       | [] => "Statistical outlier in code metrics"
       | _ :: _ => join "; " reasons
       end;
     Anomaly.metrics :=
       {| Anomaly.complexity := nth 4 file_features 0;
          Anomaly.lines := Py.int (nth 0 file_features 0);
          Anomaly.comment_ratio := nth 3 file_features 0;
          Anomaly.smells := Py.int (nth 8 file_features 0) |} |}.

(** The reports of the loop over [zip(predictions, anomaly_scores,
    nlp_analyses)], before sorting; [features[i]] is [nth i features []]. *)
Definition flagged (names : list string) (features : matrix)
    (predictions : list Z) (anomaly_scores : list Q) (nlp_analyses : list analysis)
    : list Anomaly.report :=
  omap id
    (imap (fun i '(pred, score, a) =>
             if (pred =? -1)%Z
             then Some (_create_anomaly_report names a (nth i features []) score features)
             else None)
          (zip3 predictions anomaly_scores nlp_analyses)).

Definition detect_anomalies (nlp_analyses : list analysis) : list Anomaly.report :=
  if (length nlp_analyses <? 3)%nat then []
  else
    let '(features, names) := extract_features nlp_analyses in
    (* np.nan_to_num: a rational is never NaN *)
    let features_scaled := scaler_fit_transform features in
    let predictions := model_fit_predict features_scaled in
    let anomaly_scores := model_score_samples features_scaled in
    sort_by_score_desc (flagged names features predictions anomaly_scores nlp_analyses).

Definition detect_code_anomalies (nlp_analyses : list analysis) : list Anomaly.report :=
  detect_anomalies nlp_analyses.

End Detector.

(** ** nlp_analyzer.py: the extension gate of [analyze_code_file] *)

(** [s.split(sep)] for a one-character separator. *)
Fixpoint split (sep : ascii) (s : string) : list string :=
  match s with
  | EmptyString => [""]
  | String c rest =>
    if Ascii.eqb c sep then "" :: split sep rest
    else match split sep rest with
         | [] => [String c ""]
         | w :: ws => String c w :: ws
         end
  end.

(** [filename.split('.')[-1] if '.' in filename else ''] *)
Definition file_ext_of (filename : string) : string :=
  if contains "." filename then List.last (split "."%char filename) "" else "".

Definition code_extensions : list string :=
  ["py"; "js"; "ts"; "jsx"; "tsx"; "go"; "java"; "rs"; "cpp"; "c"; "cs"].

(** [x in xs] on a list of strings. *)
Definition str_in (x : string) (xs : list string) : bool := existsb (String.eqb x) xs.

(** The initial value of [results]. *)
Definition initial_results (filename : string) : analysis :=
  {| filename := filename; metrics := ∅; smells := []; naming := ∅;
     dominant_convention := None; documentation := ∅; semantic := None;
     most_common_terms := None; error := None |}.

Module FileData.
(** The dicts [fetch_repo_tree_recursive] returns. *)
Record t := { path : string; name : string; content : string }.
End FileData.

Section Analyzer.

(** The [try] block of [analyze_code_file], which runs regular
    expressions, radon and NLTK over the content of a supported file:
    from [results], the content, the extension and [fast_mode] to the
    record returned. *)
Variable analyze_supported : analysis -> string -> string -> bool -> analysis.

Definition analyze_code_file (filename content : string) (fast_mode : bool) : analysis :=
  let results := initial_results filename in
  let file_ext := file_ext_of filename in
  if negb (str_in file_ext code_extensions) then results
  else analyze_supported results content file_ext fast_mode.

(** The loop of [analyze_repo] (routes/repos.py) that fills
    [nlp_analyses]: one record per fetched file, none skipped. *)
Definition nlp_analyses_of (important_files : list FileData.t) : list analysis :=
  fold_left (fun nlp_analyses file_data =>
               nlp_analyses ++ [analyze_code_file (FileData.name file_data)
                                                  (FileData.content file_data) false])
            important_files [].

End Analyzer.

(** * The specification's wording, for comparison with the code *)

Module Spec.

(** §4.2: the twelve dimensions, in the fixed order. *)
Inductive dimension :=
| totalLines | nonEmptyLines | commentLines | commentRatio
| avgComplexity | maxComplexity | maintainabilityIndex | halsteadDifficulty
| smellCount | namingConsistency | vocabularyRichness | commentMeaningfulness.

Definition order : list dimension :=
  [ totalLines; nonEmptyLines; commentLines; commentRatio;
    avgComplexity; maxComplexity; maintainabilityIndex; halsteadDifficulty;
    smellCount; namingConsistency; vocabularyRichness; commentMeaningfulness ].

(** The FileMetrics field behind a dimension, [None] when it is missing. *)
Definition field (a : analysis) (d : dimension) : option Q :=
  match d with
  | totalLines => metrics a !! "total_lines"
  | nonEmptyLines => metrics a !! "non_empty_lines"
  | commentLines => metrics a !! "comment_lines"
  | commentRatio => metrics a !! "comment_ratio"
  | avgComplexity => metrics a !! "avg_complexity"
  | maxComplexity => metrics a !! "max_complexity"
  | maintainabilityIndex => metrics a !! "maintainability_index"
  | halsteadDifficulty => metrics a !! "halstead_difficulty"
  | smellCount => Some (ofnat (length (smells a)))
  | namingConsistency => naming a !! "consistency_score"
  | vocabularyRichness => semantic a ≫= (.!! "vocabulary_richness")
  | commentMeaningfulness => semantic a ≫= (.!! "comment_meaningfulness")
  end.

(** Position of a dimension in the vector. *)
Definition index (d : dimension) : nat :=
  match d with
  | totalLines => 0 | nonEmptyLines => 1 | commentLines => 2 | commentRatio => 3
  | avgComplexity => 4 | maxComplexity => 5 | maintainabilityIndex => 6
  | halsteadDifficulty => 7 | smellCount => 8 | namingConsistency => 9
  | vocabularyRichness => 10 | commentMeaningfulness => 11
  end.

(** §4.4: the five directional rules. *)
Inductive direction := AboveMean | BelowMean.

Definition rules : list (dimension * direction * string) :=
  [ (avgComplexity, AboveMean, "complexity");
    (totalLines, AboveMean, "size");
    (commentRatio, BelowMean, "documentation");
    (namingConsistency, BelowMean, "naming");
    (smellCount, AboveMean, "code_smells") ].

(** |z| > 2 for a value against a mean and a standard deviation. *)
Definition z_exceeds (value mean std : Q) : Prop :=
  0 < std /\ 2 < Qabs ((value - mean) / std).

Definition on_side (dir : direction) (value mean : Q) : Prop :=
  match dir with AboveMean => mean < value | BelowMean => value < mean end.

(** §4.5: clamping and the quality sub-scores. *)
Definition clamp (lo hi x : Q) : Q := Qmax lo (Qmin hi x).

Definition complexitySubScore (avg_complexity : Q) : Q :=
  if Qle_bool avg_complexity 5 then 100 else 100 - (avg_complexity - 5) * 10.
Definition docSubScore (comment_ratio : Q) : Q := Qmin 100 (comment_ratio * 300).
Definition smellSubScore (smell_density : Q) : Q := 100 - smell_density * 5.

Definition quality_score (avg_complexity comment_ratio smell_density : Q) : Q :=
  (4 # 10) * clamp 0 100 (complexitySubScore avg_complexity)
  + (3 # 10) * clamp 0 100 (docSubScore comment_ratio)
  + (3 # 10) * clamp 0 100 (smellSubScore smell_density).

(** §4.5: a smell string contains a keyword, letter case ignored. *)
Definition mentions (smell keyword : string) : bool :=
  contains (lower keyword) (lower smell).
Definition is_security_issue (smell : string) : bool :=
  existsb (mentions smell) ["password"; "secret"; "token"; "api_key"; "private_key"].

End Spec.

(** * Derived notions used in the statements *)

(** Descending order of score. *)
Definition score_ge (a b : Anomaly.report) : Prop :=
  (Anomaly.score b <= Anomaly.score a)%Z.

(** The name [extract_features] stores for a dimension. *)
Definition name_of (d : Spec.dimension) : string := nth (Spec.index d) feature_names "".

(** Value of a record, batch mean and batch standard deviation in one
    dimension. *)
Definition value_of (a : analysis) (d : Spec.dimension) : Q :=
  nth (Spec.index d) (file_features a) 0.
Definition mean_of (nlp_analyses : list analysis) (d : Spec.dimension) : Q :=
  Py.np_mean (column (Spec.index d) (map file_features nlp_analyses)).
Definition std_of (np_std : list Q -> Q) (nlp_analyses : list analysis)
    (d : Spec.dimension) : Q :=
  np_std (column (Spec.index d) (map file_features nlp_analyses)).

(** The record's z-score in dimension [d] exceeds 2 in absolute value. *)
Definition crosses (np_std : list Q -> Q) (a : analysis) (nlp_analyses : list analysis)
    (d : Spec.dimension) : Prop :=
  Spec.z_exceeds (value_of a d) (mean_of nlp_analyses d) (std_of np_std nlp_analyses d).

(** A directional rule applies to the record. *)
Definition fires (np_std : list Q -> Q) (a : analysis) (nlp_analyses : list analysis)
    (rule : Spec.dimension * Spec.direction * string) : Prop :=
  crosses np_std a nlp_analyses rule.1.1
  /\ Spec.on_side rule.1.2 (value_of a rule.1.1) (mean_of nlp_analyses rule.1.1).

(** The tags and reasons found for a record of a non-empty batch: one
    [attribute] call per dimension, in the fixed order. *)
Definition found_for (np_std : list Q -> Q) (a : analysis)
    (nlp_analyses : list analysis) : list (string * string) :=
  omap (fun d => attribute (name_of d) (value_of a d) (mean_of nlp_analyses d)
                           (std_of np_std nlp_analyses d))
       Spec.order.

(** [<] on [Q] is decidable, so that [filter] can count with it. *)
#[local] Instance Qlt_decision (x y : Q) : Decision (x < y).
Proof.
  destruct (Qlt_le_dec x y) as [H|H]; [left; exact H | right; apply Qle_not_lt, H].
Defined.

(** Every smell string of the batch, file after file. *)
Definition all_smells (nlp_analyses : list analysis) : list string :=
  concat (map smells nlp_analyses).

(** * Sample inputs *)

(** One mock commit of [test_productivity.py]. *)
Definition user1_commit : commit_summary :=
  {| commit := Some {| author := Some {| name := Some "User1"; author_date := None |};
                       message := None |} |}.

Definition no_repo : repo_data :=
  {| repo_name := "demo"; repo_description := None; language := None;
     stargazers_count := 0; forks_count := 0; open_issues_count := 0 |}.

(** A file with a hard-coded password and one complex function. *)
Definition leaky_file : analysis :=
  {| filename := "settings.py";
     metrics := {[ "total_lines" := 40; "max_complexity" := 18 ]};
     smells := ["Hardcoded password found"];
     naming := ∅; dominant_convention := None; documentation := ∅;
     semantic := None; most_common_terms := None; error := None |}.


(** ** A worked batch: ten files of 200 lines and one of 5000 (scenario 1)

    Stand-ins for numpy and scikit-learn, used for examples only: [np.std]
    to nine decimals by Newton's iteration, a scaler that standardises each
    column, and a detector that flags the rows with a standardised entry
    above 2. *)

Definition variance (xs : list Q) : Q :=
  let m := Py.np_mean xs in Py.np_mean (map (fun x => (x - m) * (x - m)) xs).

Fixpoint newton_sqrt (steps : nat) (x guess : Q) : Q :=
  match steps with
  | O => guess
  | S k => newton_sqrt k x (Py.round ((guess + x / guess) / 2) 9)
  end.

Definition std_newton (xs : list Q) : Q :=
  let v := variance xs in
  if Py.gt v 0 then newton_sqrt 40 v (Py.round v 9) else 0.

Definition standard_scale (m : matrix) : matrix :=
  map (fun row =>
         imap (fun j x =>
                 let s := std_newton (column j m) in
                 if Py.gt s 0 then Qred ((x - Py.np_mean (column j m)) / s) else 0)
              row) m.

Definition flag_far_rows (m : matrix) : list Z :=
  map (fun row => if existsb (fun x => Py.gt (Qabs x) 2) row then (-1)%Z else 1%Z) m.

Definition toy_scores (m : matrix) : list Q :=
  map (fun row => if existsb (fun x => Py.gt (Qabs x) 2) row then - (7 # 10) else - (4 # 10)) m.

Definition file_of_lines (fname : string) (total_lines : Q) : analysis :=
  {| filename := fname;
     metrics := {[ "total_lines" := total_lines; "comment_ratio" := 1 # 10 ]};
     smells := []; naming := ∅; dominant_convention := None; documentation := ∅;
     semantic := None; most_common_terms := None; error := None |}.

Definition scenario1 : list analysis :=
  replicate 10 (file_of_lines "small.py" 200) ++ [file_of_lines "big.py" 5000].

Definition big_report : Anomaly.report :=
  {| Anomaly.file := "big.py";
     Anomaly.score := 100;
     Anomaly.types := ["size"];
     Anomaly.description := "Large file (5000 lines vs avg 636)";
     Anomaly.metrics := {| Anomaly.complexity := 0; Anomaly.lines := 5000;
                           Anomaly.comment_ratio := 1 # 10; Anomaly.smells := 0 |} |}.

(** A commit by a given author, a merged pull request, and two weeks of
    work by five people. *)
Definition commit_by (who : string) : commit_summary :=
  {| commit := Some {| author := Some {| name := Some who; author_date := None |};
                       message := Some "work" |} |}.

Definition merged_pr : pr_summary :=
  {| number := 7; title := "Add parser"; state := "closed";
     merged_at := Some "2024-05-01T10:00:00Z" |}.

Definition busy_commits : list commit_summary :=
  map commit_by ["ana"; "bo"; "cy"; "di"; "ed"; "ana"; "bo"; "cy"; "di"; "ed"].

(** Position of a grade on the scale F < D < C < B < A. *)
Definition grade_rank (grade : string) : nat :=
  if String.eqb grade "A" then 4
  else if String.eqb grade "B" then 3
  else if String.eqb grade "C" then 2
  else if String.eqb grade "D" then 1
  else 0.

(** The tag the attribution loop can give for a dimension. *)
Definition tag_of_dimension (d : Spec.dimension) : option string :=
  match d with
  | Spec.totalLines => Some "size"
  | Spec.commentRatio => Some "documentation"
  | Spec.avgComplexity => Some "complexity"
  | Spec.smellCount => Some "code_smells"
  | Spec.namingConsistency => Some "naming"
  | _ => None
  end.


(** * More of nlp_analyzer.py *)

(** ** Lines, whitespace and comments *)

Definition newline : ascii := "010"%char.

(** [c.isspace()], which is also the class [\s] of [re], for a character
    below 128: tab to carriage return, the four separators, space. *)
Definition is_space (c : ascii) : bool :=
  let n := nat_of_ascii c in
  ((9 <=? n)%nat && (n <=? 13)%nat) || ((28 <=? n)%nat && (n <=? 32)%nat).

(** [s.lstrip()], [s.rstrip()], [s.strip()] *)
Fixpoint lstrip (s : string) : string :=
  match s with
  | EmptyString => EmptyString
  | String c rest => if is_space c then lstrip rest else s
  end.

Fixpoint rstrip (s : string) : string :=
  match s with
  | EmptyString => EmptyString
  | String c rest =>
    match rstrip rest with
    | EmptyString => if is_space c then EmptyString else String c EmptyString
    | kept => String c kept
    end
  end.

Definition strip (s : string) : string := rstrip (lstrip s).

(** [s[n:]] *)
Fixpoint drop_chars (n : nat) (s : string) : string :=
  match n, s with
  | O, _ => s
  | S k, String _ rest => drop_chars k rest
  | S _, EmptyString => EmptyString
  end.

(** [d.get(k)] on a dict written as a list of items. *)
Fixpoint dict_get {V} (d : list (string * V)) (k : string) : option V :=
  match d with
  | [] => None
  | (k', v) :: rest => if String.eqb k' k then Some v else dict_get rest k
  end.

(** [single_line_patterns]: every pattern is [^\s*] followed by the
    marker kept here. *)
Definition single_line_patterns : list (string * string) :=
  [ ("py", "#"); ("js", "//"); ("ts", "//"); ("jsx", "//"); ("tsx", "//");
    ("go", "//"); ("java", "//"); ("rs", "//"); ("cpp", "//"); ("c", "//");
    ("cs", "//") ].

(** [re.match(r'^\s*M', line)] for a marker [M] that starts with no
    whitespace: the line, leading whitespace dropped, starts with [M]. *)
Definition match_after_space (marker line : string) : bool :=
  String.prefix marker (lstrip line).

Definition detect_comments (content file_ext : string) : nat :=
  let lines := split newline content in
  match dict_get single_line_patterns file_ext with
  | Some marker =>
    fold_left (fun comment_count line =>
                 if match_after_space marker line
                 then (comment_count + 1)%nat else comment_count)
              lines 0%nat
  | None => 0%nat
  end.

(** The "basic metrics" and "comment detection" assignments that open the
    [try] block of [analyze_code_file]. *)
Definition basic_metrics (content file_ext : string) : gmap string Q :=
  let lines := split newline content in
  let m := <["total_lines" := ofnat (length lines)]> (∅ : gmap string Q) in
  let m := <["non_empty_lines" :=
               ofnat (length (filter (fun l => Py.truthy (strip l) = true) lines))]> m in
  let comment_lines := detect_comments content file_ext in
  let m := <["comment_lines" := ofnat comment_lines]> m in
  <["comment_ratio" :=
      Py.round (ofnat comment_lines / ofnat (Nat.max (length lines) 1)) 2]> m.

(** [comment_patterns] of [extract_comments_text]: [^\s*M\s*(.+)]. *)
Definition comment_patterns : list (string * string) :=
  [ ("py", "#"); ("js", "//"); ("ts", "//"); ("jsx", "//"); ("tsx", "//");
    ("go", "//"); ("java", "//") ].

(** [re.match(r'^\s*M\s*(.+)', line)] followed by [group(1).strip()].
    After the marker, [\s*(.+)] matches exactly when something is left on
    the line; the group is what follows the leading whitespace, or one
    whitespace character when nothing else follows, so that its [strip()]
    is the [strip()] of all that is left. *)
Definition comment_text (marker line : string) : option string :=
  let l := lstrip line in
  if String.prefix marker l then
    match drop_chars (String.length marker) l with
    | EmptyString => None
    | rest => Some (strip rest)
    end
  else None.

Definition extract_comments_text (content file_ext : string) : list string :=
  let lines := split newline content in
  match dict_get comment_patterns file_ext with
  | Some marker => omap (comment_text marker) lines
  | None => []
  end.

(** ** Code smells *)

(** Keys of [function_patterns]. *)
Definition function_pattern_exts : list string := ["py"; "js"; "ts"; "go"; "java"].

(** [line.count(c)] *)
Fixpoint count_char (c : ascii) (s : string) : nat :=
  match s with
  | EmptyString => 0
  | String c' rest => ((if Ascii.eqb c' c then 1 else 0) + count_char c rest)%nat
  end.

(** The nesting level the second loop computes for a line. *)
Definition indent_level (file_ext line : string) : Z :=
  if String.eqb file_ext "py"
  then Z.of_nat (String.length line - String.length (lstrip line)) / 4
  else Z.of_nat (count_char "{" line) - Z.of_nat (count_char "}" line).

(** The second loop: from line index [i] on, the smell for the first line
    too deep, then [break]. *)
Fixpoint deep_nesting_loop (file_ext : string) (i : nat) (lines : list string)
    : list string :=
  match lines with
  | [] => []
  | line :: rest =>
    if (4 <? indent_level file_ext line)%Z
    then ["Deep nesting at line " +:+ pretty (i + 1)%nat +:+ ": "
          +:+ pretty (indent_level file_ext line) +:+ " levels"]
    else deep_nesting_loop file_ext (S i) rest
  end.

Section Smells.

(** [re.search(pattern, line)] for the pattern of an extension, a regular
    expression with [\w] and alternatives: [None] without a match, else
    [match.group(1) or match.group(2)]. *)
Variable search_function : string -> string -> option (option string).

(** The first loop: [current_function], [function_start] and the smells
    appended so far, from line index [i] on. *)
Fixpoint long_function_loop (file_ext : string) (i : nat) (lines : list string)
    (current_function : option string) (function_start : nat) (found : list string)
    : list string :=
  match lines with
  | [] => found
  | line :: rest =>
    match search_function file_ext line with
    | Some matched =>
      let found :=
        if truthy_opt current_function && (50 <? i - function_start)%nat
        then found ++ ["Long function '" +:+ default "" current_function +:+ "': "
                       +:+ pretty (i - function_start)%nat +:+ " lines"]
        else found in
      long_function_loop file_ext (S i) rest matched i found
    | None => long_function_loop file_ext (S i) rest current_function function_start found
    end
  end.

Definition detect_code_smells (content file_ext : string) (results : analysis) : analysis :=
  let lines := split newline content in
  let long :=
    if str_in file_ext function_pattern_exts
    then long_function_loop file_ext 0 lines None 0 []
    else [] in
  let deep := deep_nesting_loop file_ext 0 lines in
  {| filename := filename results; metrics := metrics results;
     smells := smells results ++ long ++ deep;
     naming := naming results; dominant_convention := dominant_convention results;
     documentation := documentation results; semantic := semantic results;
     most_common_terms := most_common_terms results; error := error results |}.

End Smells.


(** ** Naming conventions

    [identifiers] is the list [re.findall] returns for the identifier
    pattern (a letter or underscore, then letters, digits and underscores,
    between word boundaries); the rest of
    [analyze_naming_conventions] is modelled on it. Identifiers are made of
    ASCII letters, digits and underscores, so the cased characters are the
    52 letters. *)

Definition is_upper_char (c : ascii) : bool :=
  let n := nat_of_ascii c in (65 <=? n)%nat && (n <=? 90)%nat.
Definition is_lower_char (c : ascii) : bool :=
  let n := nat_of_ascii c in (97 <=? n)%nat && (n <=? 122)%nat.

(** [any(c.isupper() for c in s)] *)
Definition any_upper (s : string) : bool := existsb is_upper_char (list_ascii_of_string s).

(** [s.islower()]: a lowercase letter and no uppercase one. *)
Definition islower (s : string) : bool :=
  existsb is_lower_char (list_ascii_of_string s) && negb (any_upper s).

(** The three conditions, for an identifier that is not empty. *)
Definition is_snake (i : string) : bool := contains "_" i && islower i.
Definition is_camel (i : string) : bool :=
  match i with
  | String c _ => is_lower_char c && any_upper i
  | EmptyString => false
  end.
Definition is_pascal (i : string) : bool :=
  match i with
  | String c rest => is_upper_char c && any_upper rest
  | EmptyString => false
  end.

(** What the function does to [results['naming']]: nothing (no identifier),
    an [IndexError] from [i[0]] (an empty identifier, which the pattern
    never yields), or the five entries. *)
Inductive naming_outcome :=
| NamingUnchanged
| NamingIndexError
| NamingUpdated (naming : gmap string Q) (dominant_convention : string).

(** [max(items, key=lambda x: x[1])]: the first item of greatest count. *)
Definition max_by_count (items : list (string * nat)) (first : string * nat)
    : string * nat :=
  fold_left (fun best item => if (best.2 <? item.2)%nat then item else best) items first.

Definition analyze_naming_conventions (identifiers : list string) : naming_outcome :=
  match identifiers with
  | [] => NamingUnchanged
  | _ :: _ =>
    if str_in "" identifiers then NamingIndexError
    else
      let snake_case := length (filter (fun i => is_snake i = true) identifiers) in
      let camel_case := length (filter (fun i => is_camel i = true) identifiers) in
      let pascal_case := length (filter (fun i => is_pascal i = true) identifiers) in
      let total := length identifiers in
      let dominant :=
        max_by_count [("camelCase", camel_case); ("PascalCase", pascal_case)]
                     ("snake_case", snake_case) in
      NamingUpdated
        {[ "snake_case_ratio" := Py.round (ofnat snake_case / ofnat total) 2;
           "camel_case_ratio" := Py.round (ofnat camel_case / ofnat total) 2;
           "pascal_case_ratio" := Py.round (ofnat pascal_case / ofnat total) 2;
           "consistency_score" := Py.round (ofnat dominant.2 / ofnat total) 2 ]}
        dominant.1
  end.

(** ** Cyclomatic complexity of a Python file

    [blocks] is what radon's [cc_visit] returns, a name and a complexity
    per block; this is the [if complexity_blocks:] part of
    [analyze_code_file]. *)
Definition max_complexity_of (blocks : list (string * Z)) : Z :=
  match blocks with
  | [] => 0%Z
  | b :: rest => fold_left (fun m b' => if (m <? b'.2)%Z then b'.2 else m) rest b.2
  end.

Definition record_complexity (blocks : list (string * Z)) (results : analysis) : analysis :=
  match blocks with
  | [] => results
  | _ :: _ =>
    let avg_complexity :=
      Py.sum (map (fun b => ofZ b.2) blocks) / ofnat (length blocks) in
    let max_complexity := max_complexity_of blocks in
    {| filename := filename results;
       metrics := <["max_complexity" := ofZ max_complexity]>
                    (<["avg_complexity" := Py.round avg_complexity 2]> (metrics results));
       smells := smells results
                 ++ map (fun b => "High complexity in " +:+ b.1 +:+ ": " +:+ pretty b.2)
                        (filter (fun b => (10 < b.2)%Z) blocks);
       naming := naming results; dominant_convention := dominant_convention results;
       documentation := documentation results; semantic := semantic results;
       most_common_terms := most_common_terms results; error := error results |}
  end.


(** * Theorems *)

(** ** Productivity *)

(** The five mock commits of [test_productivity.py]. *)
Example test_productivity :
  _calculate_productivity_kpis (Some (replicate 5 user1_commit)) (Some [])
  = {[ "productivity_score" := 41; "commit_frequency" := 5; "pr_merge_rate" := 0;
       "avg_pr_size" := 0; "active_contributors" := 1 ]}.
Proof. vm_compute. reflexivity. Qed.

Lemma contributors_loop_same (who : string) (cs : list commit_summary) (acc : gset string) :
  Py.truthy who = true ->
  Forall (fun c => commit_author_name c = Some who) cs ->
  fold_left (fun (acc : gset string) c =>
               match commit_author_name c with
               | Some a => if Py.truthy a then acc ∪ {[ a ]} else acc
               | None => acc
               end) cs acc
  = match cs with [] => acc | _ :: _ => acc ∪ {[ who ]} end.
Proof.
  intros Hwho Hall. revert acc.
  induction Hall as [|c cs Hc _ IH]; intros acc; [reflexivity|].
  cbn [fold_left]. rewrite Hc, Hwho, IH.
  destruct cs; [reflexivity|]. apply set_eq. intros x.
  rewrite !elem_of_union. tauto.
Qed.

Lemma contributors_of_same (who : string) (c : commit_summary) (cs : list commit_summary) :
  Py.truthy who = true ->
  Forall (fun c => commit_author_name c = Some who) (c :: cs) ->
  contributors_of (Some (c :: cs)) = {[ who ]}.
Proof.
  intros Hwho Hall. unfold contributors_of. cbn [truthy_list or_nil default].
  rewrite (contributors_loop_same who) by assumption. apply union_empty_l_L.
Qed.

(** C1. Five commit summaries that all carry the same (non-empty) author
    name, with an empty pull-request list, give commit_frequency 5,
    pr_merge_rate 0, active_contributors 1 and productivity_score 41.0
    (next to the constant avg_pr_size 0); 41 is
    0.4 x min(100, 5/10 x 100) + 0.3 x 50 + 0.3 x min(100, 1/5 x 100). *)
Theorem productivity_five_commits_one_author (who : string) (commits : list commit_summary) :
  length commits = 5%nat ->
  Py.truthy who = true ->
  Forall (fun c => commit_author_name c = Some who) commits ->
  _calculate_productivity_kpis (Some commits) (Some [])
  = {[ "productivity_score" := 41; "commit_frequency" := 5; "pr_merge_rate" := 0;
       "avg_pr_size" := 0; "active_contributors" := 1 ]}
  /\ 41 == (4 # 10) * Qmin 100 (5 / 10 * 100) + (3 # 10) * 50
           + (3 # 10) * Qmin 100 (1 / 5 * 100).
Proof.
  intros Hlen Hwho Hall. split.
  - destruct commits as [|c cs]; [discriminate|].
    unfold _calculate_productivity_kpis.
    rewrite (contributors_of_same who c cs Hwho Hall), size_singleton.
    cbn [truthy_list or_nil default negb andb]. unfold id. rewrite Hlen.
    vm_compute. reflexivity.
  - vm_compute. reflexivity.
Qed.

Lemma productivity_five_commits_one_author_witness :
  _calculate_productivity_kpis (Some (replicate 5 user1_commit)) (Some [])
  = {[ "productivity_score" := 41; "commit_frequency" := 5; "pr_merge_rate" := 0;
       "avg_pr_size" := 0; "active_contributors" := 1 ]}.
Proof.
  apply (productivity_five_commits_one_author "User1" (replicate 5 user1_commit)).
  - reflexivity.
  - reflexivity.
  - repeat constructor.
Defined.

(** C10. With at least one analysed file and neither commits nor pull
    requests (each list empty or absent), the productivity category has
    every field zero; the score is 0, not the 15 that the no-PR default of
    50 would contribute. *)
Theorem no_activity_zero_productivity
    (nlp_analyses : list analysis) (repo : repo_data)
    (commits : option (list commit_summary)) (prs : option (list pr_summary))
    (now : string) :
  nlp_analyses <> [] ->
  truthy_list commits = false ->
  truthy_list prs = false ->
  productivity (calculate_kpis nlp_analyses repo commits prs now)
  = {[ "productivity_score" := 0; "commit_frequency" := 0; "pr_merge_rate" := 0;
       "avg_pr_size" := 0; "active_contributors" := 0 ]}
  /\ productivity (calculate_kpis nlp_analyses repo commits prs now) !! "productivity_score"
     = Some 0.
Proof.
  intros Hne Hc Hp.
  assert (productivity (calculate_kpis nlp_analyses repo commits prs now)
          = _calculate_productivity_kpis commits prs) as ->.
  { destruct nlp_analyses; [contradiction|reflexivity]. }
  unfold _calculate_productivity_kpis. rewrite Hc, Hp. cbn [negb andb].
  split; [reflexivity|]. vm_compute. reflexivity.
Qed.

Lemma no_activity_zero_productivity_witness :
  productivity (calculate_kpis [initial_results "app.py"] no_repo None (Some []) "t")
  !! "productivity_score" = Some 0.
Proof.
  apply (no_activity_zero_productivity [initial_results "app.py"] no_repo None (Some []) "t").
  - discriminate.
  - reflexivity.
  - reflexivity.
Defined.

(** ** Feature vectors *)

Lemma file_features_fields (a : analysis) :
  file_features a = map (fun d => default 0 (Spec.field a d)) Spec.order.
Proof.
  unfold file_features, Spec.order, get0. cbn [map Spec.field].
  destruct (semantic a) as [d|]; cbn; [reflexivity|].
  rewrite !lookup_empty. reflexivity.
Qed.

Lemma file_features_length (a : analysis) : length (file_features a) = 12%nat.
Proof. reflexivity. Qed.

(** C2. The feature matrix has one row per record, every row has exactly
    12 entries, and the row of a record lists the twelve dimensions in the
    fixed order, a missing field read as 0; the names stored next to the
    matrix are the twelve names in the same order. *)
Theorem extract_features_twelve_in_order (nlp_analyses : list analysis) :
  length (fst (extract_features nlp_analyses)) = length nlp_analyses
  /\ Forall (fun row => length row = 12%nat) (fst (extract_features nlp_analyses))
  /\ Forall2 (fun a row => row = map (fun d => default 0 (Spec.field a d)) Spec.order)
             nlp_analyses (fst (extract_features nlp_analyses))
  /\ (forall a d, nth (Spec.index d) (file_features a) 0 = default 0 (Spec.field a d))
  /\ length (snd (extract_features nlp_analyses)) = 12%nat.
Proof.
  unfold extract_features. cbn [fst snd]. repeat split.
  - apply length_map.
  - apply Forall_map, Forall_forall. intros a _. apply file_features_length.
  - induction nlp_analyses as [|a l IH]; constructor; [|exact IH].
    apply file_features_fields.
  - intros a d. rewrite file_features_fields. destruct d; reflexivity.
Qed.

(** ** Sorting by score *)

Lemma insert_desc_perm (x : Anomaly.report) (l : list Anomaly.report) :
  Permutation (insert_desc x l) (x :: l).
Proof.
  induction l as [|y l IH]; cbn [insert_desc]; [reflexivity|].
  destruct (Anomaly.score y <=? Anomaly.score x)%Z; [reflexivity|].
  rewrite IH. apply perm_swap.
Qed.

Lemma sort_by_score_desc_perm (l : list Anomaly.report) :
  Permutation (sort_by_score_desc l) l.
Proof.
  induction l as [|x l IH]; [reflexivity|].
  cbn [sort_by_score_desc foldr]. rewrite insert_desc_perm.
  constructor. exact IH.
Qed.

Lemma insert_desc_sorted (x : Anomaly.report) (l : list Anomaly.report) :
  StronglySorted score_ge l -> StronglySorted score_ge (insert_desc x l).
Proof.
  induction 1 as [|y l Hl IH Hy]; cbn [insert_desc].
  - repeat constructor.
  - destruct (Anomaly.score y <=? Anomaly.score x)%Z eqn:Hcmp.
    + apply Z.leb_le in Hcmp. constructor; [constructor; assumption|].
      constructor; [exact Hcmp|].
      eapply Forall_impl; [exact Hy|]. unfold score_ge. intros z Hz. lia.
    + apply Z.leb_gt in Hcmp. constructor; [exact IH|].
      rewrite insert_desc_perm. constructor; [|exact Hy].
      unfold score_ge. lia.
Qed.

Lemma sort_by_score_desc_sorted (l : list Anomaly.report) :
  StronglySorted score_ge (sort_by_score_desc l).
Proof.
  induction l as [|x l IH]; [constructor|].
  cbn [sort_by_score_desc foldr]. apply insert_desc_sorted, IH.
Qed.

(** The sort is stable: an already sorted list is left as it is. *)
Lemma sort_by_score_desc_stable (l : list Anomaly.report) :
  StronglySorted score_ge l -> sort_by_score_desc l = l.
Proof.
  induction 1 as [|x l Hl IH Hx]; [reflexivity|].
  cbn [sort_by_score_desc foldr]. fold (sort_by_score_desc l). rewrite IH.
  destruct Hx as [|y l Hy _]; [reflexivity|].
  cbn [insert_desc]. unfold score_ge in Hy.
  apply Z.leb_le in Hy. rewrite Hy. reflexivity.
Qed.

Lemma normalize_score_range (anomaly_score : Q) :
  (0 <= normalize_score anomaly_score <= 100)%Z.
Proof. unfold normalize_score. lia. Qed.

Lemma lookup_zip3 {A B C} (l1 : list A) (l2 : list B) (l3 : list C) i a b c :
  zip3 l1 l2 l3 !! i = Some (a, b, c) ->
  l1 !! i = Some a /\ l2 !! i = Some b /\ l3 !! i = Some c.
Proof.
  revert l2 l3 i. induction l1 as [|x l1 IH]; intros [|y l2] [|z l3] i; try discriminate.
  destruct i as [|i]; cbn.
  - intros [= -> -> ->]. auto.
  - apply IH.
Qed.

Section DetectorFacts.

Variable scaler_fit_transform : matrix -> matrix.
Variable model_fit_predict : matrix -> list Z.
Variable model_score_samples : matrix -> list Q.
Variable np_std : list Q -> Q.

(** Every report of the loop was built for a record of the batch, from
    its own row of the matrix. *)
Lemma flagged_inv names features predictions anomaly_scores nlp_analyses r :
  r ∈ flagged np_std names features predictions anomaly_scores nlp_analyses ->
  exists i a anomaly_score,
    nlp_analyses !! i = Some a
    /\ r = _create_anomaly_report np_std names a (nth i features []) anomaly_score features.
Proof.
  unfold flagged. intros Hr.
  apply list_elem_of_omap in Hr as (o & Ho & Hid). cbn in Hid. subst o.
  apply list_elem_of_lookup in Ho as [i Hi].
  rewrite list_lookup_imap in Hi.
  destruct (zip3 predictions anomaly_scores nlp_analyses !! i)
    as [[[pred sc] a]|] eqn:Hz; [|discriminate].
  cbn in Hi. destruct (pred =? -1)%Z; [|discriminate].
  injection Hi as <-. apply lookup_zip3 in Hz as (_ & _ & Ha).
  exists i, a, sc. auto.
Qed.

Lemma detect_anomalies_inv nlp_analyses r :
  r ∈ detect_anomalies scaler_fit_transform model_fit_predict model_score_samples np_std
                      nlp_analyses ->
  exists i a anomaly_score,
    nlp_analyses !! i = Some a
    /\ r = _create_anomaly_report np_std feature_names a (file_features a) anomaly_score
                                  (map file_features nlp_analyses).
Proof.
  unfold detect_anomalies.
  destruct (length nlp_analyses <? 3)%nat; [intros H; inversion H|].
  cbn [extract_features]. rewrite sort_by_score_desc_perm. intros Hr.
  apply flagged_inv in Hr as (i & a & sc & Ha & ->).
  exists i, a, sc. split; [exact Ha|].
  rewrite (nth_lookup_Some _ i [] (file_features a)); [reflexivity|].
  rewrite list_lookup_fmap, Ha. reflexivity.
Qed.

(** C3. A batch of fewer than three records, the empty one included,
    yields the empty anomaly list; no model is fitted and nothing fails. *)
Theorem small_batch_no_anomalies (nlp_analyses : list analysis) :
  (length nlp_analyses < 3)%nat ->
  detect_anomalies scaler_fit_transform model_fit_predict model_score_samples np_std
                   nlp_analyses = [].
Proof.
  intros Hlen. unfold detect_anomalies.
  apply Nat.ltb_lt in Hlen. rewrite Hlen. reflexivity.
Qed.

(** C4. Every report returned has an integer score between 0 and 100,
    and the returned list is in descending order of score. *)
Theorem anomalies_scored_and_sorted (nlp_analyses : list analysis) :
  Forall (fun r => (0 <= Anomaly.score r <= 100)%Z)
         (detect_anomalies scaler_fit_transform model_fit_predict model_score_samples
                           np_std nlp_analyses)
  /\ StronglySorted score_ge
       (detect_anomalies scaler_fit_transform model_fit_predict model_score_samples
                         np_std nlp_analyses).
Proof.
  split.
  - apply Forall_forall. intros r Hr.
    apply detect_anomalies_inv in Hr as (i & a & sc & _ & ->).
    apply normalize_score_range.
  - unfold detect_anomalies.
    destruct (length nlp_analyses <? 3)%nat; [constructor|].
    cbn [extract_features]. apply sort_by_score_desc_sorted.
Qed.

(** C9. With no input files the KPI report is the explicit empty
    structure: four empty categories, overall_health_score 0, grade "N/A"
    (which is not the grade "F"), analyzed_files 0; and the anomaly list is
    empty. *)
Theorem empty_batch_report (repo : repo_data)
    (commits : option (list commit_summary)) (prs : option (list pr_summary))
    (now : string) :
  let k := calculate_kpis [] repo commits prs now in
  quality k = ∅ /\ maintainability k = ∅ /\ productivity k = ∅ /\ security k = ∅
  /\ overall_health_score (summary k) = 0
  /\ grade (summary k) = "N/A"
  /\ grade (summary k) <> "F"
  /\ (forall score, _score_to_grade score <> "N/A")
  /\ analyzed_files (summary k) = 0%nat
  /\ detect_anomalies scaler_fit_transform model_fit_predict model_score_samples
                      np_std [] = [].
Proof.
  cbn. repeat split; try discriminate.
  intros score. unfold _score_to_grade.
  repeat match goal with |- context [if ?b then _ else _] => destruct b end;
    discriminate.
Qed.

End DetectorFacts.

Lemma small_batch_no_anomalies_witness :
  detect_anomalies (fun m => m) (fun m => map (fun _ => (-1)%Z) m)
                   (fun m => map (fun _ => 0) m) (fun _ => 1)
                   [initial_results "a.py"; initial_results "b.py"] = [].
Proof.
  apply small_batch_no_anomalies. cbn. lia.
Defined.

(** ** Attribution *)

Lemma gt_true (a b : Q) : Py.gt a b = true <-> b < a.
Proof.
  unfold Py.gt. rewrite negb_true_iff, <- not_true_iff_false, Qle_bool_iff.
  split; [apply Qnot_le_lt | apply Qlt_not_le].
Qed.

Lemma lt_true (a b : Q) : Py.lt a b = true <-> a < b.
Proof. unfold Py.lt. apply (gt_true b a). Qed.

Lemma attribute_None_below (feature_name : string) (value mean std : Q) :
  ~ Spec.z_exceeds value mean std -> attribute feature_name value mean std = None.
Proof.
  intros Hz. unfold attribute.
  destruct (Py.gt std 0) eqn:Hs; [|reflexivity].
  destruct (Py.gt (Qabs ((value - mean) / std)) 2) eqn:Ha; [|reflexivity].
  exfalso. apply Hz. split; [apply gt_true, Hs | apply gt_true, Ha].
Qed.

Lemma attribute_tag (d : Spec.dimension) (value mean std : Q) (tag : string) :
  fst <$> attribute (name_of d) value mean std = Some tag
  <-> Spec.z_exceeds value mean std
      /\ exists dir, (d, dir, tag) ∈ Spec.rules /\ Spec.on_side dir value mean.
Proof.
  unfold Spec.z_exceeds, attribute.
  rewrite <- (gt_true std 0), <- (gt_true (Qabs ((value - mean) / std)) 2).
  destruct (Py.gt std 0); [|split; [discriminate | intros [[[=] _] _]]].
  destruct (Py.gt (Qabs ((value - mean) / std)) 2);
    [|split; [discriminate | intros [[_ [=]] _]]].
  assert (Hrules : forall dir, (d, dir, tag) ∈ Spec.rules <->
            (d, dir, tag) = (Spec.avgComplexity, Spec.AboveMean, "complexity")
            \/ (d, dir, tag) = (Spec.totalLines, Spec.AboveMean, "size")
            \/ (d, dir, tag) = (Spec.commentRatio, Spec.BelowMean, "documentation")
            \/ (d, dir, tag) = (Spec.namingConsistency, Spec.BelowMean, "naming")
            \/ (d, dir, tag) = (Spec.smellCount, Spec.AboveMean, "code_smells")).
  { intros dir. unfold Spec.rules. rewrite !elem_of_cons, elem_of_nil. tauto. }
  split.
  - intros H. split; [auto|].
    destruct d; cbn in H;
      repeat match type of H with
             | context [Py.gt ?a ?b] =>
               let E := fresh "E" in destruct (Py.gt a b) eqn:E; cbn in H
             | context [Py.lt ?a ?b] =>
               let E := fresh "E" in destruct (Py.lt a b) eqn:E; cbn in H
             end;
      try discriminate; injection H as <-;
      try (exists Spec.AboveMean; split;
           [apply Hrules; tauto | apply gt_true; assumption]);
      try (exists Spec.BelowMean; split;
           [apply Hrules; tauto | apply lt_true; assumption]).
  - intros [_ (dir & Hin & Hside)]. apply Hrules in Hin.
    destruct Hin as [E|[E|[E|[E|E]]]]; injection E as -> -> ->; cbn in Hside;
      first [ apply gt_true in Hside; cbn; rewrite Hside; reflexivity
            | apply lt_true in Hside; cbn; rewrite Hside; reflexivity ].
Qed.

Section AttributionFacts.

Variable scaler_fit_transform : matrix -> matrix.
Variable model_fit_predict : matrix -> list Z.
Variable model_score_samples : matrix -> list Q.
Variable np_std : list Q -> Q.

Lemma report_of_batch (a a0 : analysis) (rest : list analysis) (anomaly_score : Q) :
  let nlp_analyses := a0 :: rest in
  let r := _create_anomaly_report np_std feature_names a (file_features a) anomaly_score
                                  (map file_features nlp_analyses) in
  Anomaly.file r = filename a
  /\ Anomaly.types r
     = match map fst (found_for np_std a nlp_analyses) with
       | [] => ["general"]
       | _ :: _ => map fst (found_for np_std a nlp_analyses)
       end
  /\ Anomaly.description r
     = match map snd (found_for np_std a nlp_analyses) with
       | [] => "Statistical outlier in code metrics"
       | _ :: _ => join "; " (map snd (found_for np_std a nlp_analyses))
       end.
Proof.
  cbn zeta. split; [reflexivity|]. split; reflexivity.
Qed.

Lemma in_order (d : Spec.dimension) : d ∈ Spec.order.
Proof. unfold Spec.order. destruct d; repeat (constructor; try done). Qed.

Lemma tag_found (a : analysis) (nlp_analyses : list analysis) (tag : string) :
  tag ∈ map fst (found_for np_std a nlp_analyses)
  <-> exists d dir, (d, dir, tag) ∈ Spec.rules /\ fires np_std a nlp_analyses (d, dir, tag).
Proof.
  unfold found_for.
  change (map fst) with (fmap (M:=list) (@fst string string)).
  rewrite list_fmap_omap, list_elem_of_omap. split.
  - intros (d & _ & Hd). apply attribute_tag in Hd as (Hz & dir & Hin & Hside).
    exists d, dir. split; [exact Hin|]. split; assumption.
  - intros (d & dir & Hin & Hz & Hside). exists d. split; [apply in_order|].
    apply attribute_tag. split; [exact Hz|]. exists dir. split; assumption.
Qed.

Lemma nothing_found (a : analysis) (nlp_analyses : list analysis) :
  (forall d, ~ crosses np_std a nlp_analyses d) -> found_for np_std a nlp_analyses = [].
Proof.
  intros Hno. unfold found_for.
  induction Spec.order as [|d l IH]; [reflexivity|].
  cbn [omap list_omap]. rewrite attribute_None_below by apply Hno. exact IH.
Qed.

(** C5. Every report returned describes a record of the batch; its tags are
    exactly the tags of the five directional rules that apply to the record
    (|z| > 2 in the rule's dimension, on the rule's side of the batch mean),
    or the single tag "general" when none applies; and a record none of
    whose twelve z-scores exceeds 2 is tagged "general" with the generic
    description. *)
Theorem anomaly_tags_follow_rules (nlp_analyses : list analysis) (r : Anomaly.report) :
  r ∈ detect_anomalies scaler_fit_transform model_fit_predict model_score_samples np_std
                      nlp_analyses ->
  exists a,
    a ∈ nlp_analyses
    /\ Anomaly.file r = filename a
    /\ (forall tag,
          tag ∈ Anomaly.types r
          <-> (exists d dir, (d, dir, tag) ∈ Spec.rules
                             /\ fires np_std a nlp_analyses (d, dir, tag))
              \/ (tag = "general"
                  /\ forall rule, rule ∈ Spec.rules -> ~ fires np_std a nlp_analyses rule))
    /\ ((forall d, ~ crosses np_std a nlp_analyses d) ->
        Anomaly.types r = ["general"]
        /\ Anomaly.description r = "Statistical outlier in code metrics").
Proof.
  intros Hr.
  apply detect_anomalies_inv in Hr as (i & a & sc & Ha & ->).
  exists a. split; [eapply list_elem_of_lookup_2; exact Ha|].
  destruct nlp_analyses as [|a0 rest]; [discriminate|].
  destruct (report_of_batch a a0 rest sc) as (Hfile & Htypes & Hdescr).
  split; [exact Hfile|]. split.
  - intros tag. rewrite Htypes.
    pose proof (tag_found a (a0 :: rest)) as Hfound.
    destruct (map fst (found_for np_std a (a0 :: rest))) as [|t ts] eqn:Etags.
    + rewrite list_elem_of_singleton. split.
      * intros ->. right. split; [reflexivity|].
        intros [[d dir] tag'] Hin Hf.
        assert (Hnil : tag' ∈ @nil string) by (apply Hfound; eauto).
        inversion Hnil.
      * intros [(d & dir & Hin & Hf)|[-> _]]; [|reflexivity].
        assert (Hnil : tag ∈ @nil string) by (apply Hfound; eauto).
        inversion Hnil.
    + rewrite Hfound. split; [auto|].
      intros [H|[_ Hnone]]; [exact H|]. exfalso.
      assert (Ht : t ∈ t :: ts) by constructor.
      apply Hfound in Ht as (d & dir & Hin & Hf).
      exact (Hnone _ Hin Hf).
  - intros Hno. rewrite Htypes, Hdescr, (nothing_found a (a0 :: rest) Hno).
    split; reflexivity.
Qed.

End AttributionFacts.

Example scenario1_detected :
  detect_anomalies standard_scale flag_far_rows toy_scores std_newton scenario1
  = [big_report].
Proof. vm_compute. reflexivity. Qed.

Lemma anomaly_tags_follow_rules_witness :
  exists a,
    a ∈ scenario1
    /\ Anomaly.file big_report = filename a
    /\ (forall tag,
          tag ∈ Anomaly.types big_report
          <-> (exists d dir, (d, dir, tag) ∈ Spec.rules
                             /\ fires std_newton a scenario1 (d, dir, tag))
              \/ (tag = "general"
                  /\ forall rule, rule ∈ Spec.rules -> ~ fires std_newton a scenario1 rule))
    /\ ((forall d, ~ crosses std_newton a scenario1 d) ->
        Anomaly.types big_report = ["general"]
        /\ Anomaly.description big_report = "Statistical outlier in code metrics").
Proof.
  apply (anomaly_tags_follow_rules standard_scale flag_far_rows toy_scores std_newton
                                   scenario1 big_report).
  rewrite scenario1_detected. constructor.
Defined.

(** ** Quality score *)

Lemma min_spec (a b : Q) : (a <= b /\ Py.min a b = a) \/ (b < a /\ Py.min a b = b).
Proof.
  unfold Py.min. destruct (Qle_bool a b) eqn:E.
  - left. split; [apply Qle_bool_iff, E | reflexivity].
  - right. split; [|reflexivity]. apply Qnot_le_lt. rewrite <- Qle_bool_iff. congruence.
Qed.

Lemma max_spec (a b : Q) : (b <= a /\ Py.max a b = a) \/ (a < b /\ Py.max a b = b).
Proof.
  unfold Py.max. destruct (Qle_bool b a) eqn:E.
  - left. split; [apply Qle_bool_iff, E | reflexivity].
  - right. split; [|reflexivity]. apply Qnot_le_lt. rewrite <- Qle_bool_iff. congruence.
Qed.

Ltac split_on lemma a b :=
  let H := fresh in
  let E := fresh in
  destruct (lemma a b) as [[H E]|[H E]]; rewrite E in *; clear E.

Ltac split_on_eqv lemma f a b :=
  let H := fresh in
  let E := fresh in
  let m := fresh "m" in
  destruct (lemma a b) as [[H E]|[H E]];
  set (m := f a b) in *; clearbody m.

Ltac case_min_max :=
  repeat match goal with
         | |- context [Py.min ?a ?b] => split_on min_spec a b
         | |- context [Py.max ?a ?b] => split_on max_spec a b
         | |- context [Qmin ?a ?b] => split_on_eqv Q.min_spec Qmin a b
         | |- context [Qmax ?a ?b] => split_on_eqv Q.max_spec Qmax a b
         | _ : context [Py.min ?a ?b] |- _ => split_on min_spec a b
         | _ : context [Py.max ?a ?b] |- _ => split_on max_spec a b
         | _ : context [Qmin ?a ?b] |- _ => split_on_eqv Q.min_spec Qmin a b
         | _ : context [Qmax ?a ?b] |- _ => split_on_eqv Q.max_spec Qmax a b
         end.

(** What the code computes for any three numbers: the complexity and smell
    sub-scores are clamped on both sides, the documentation sub-score from
    above. *)
Lemma quality_score_as_computed (avg_complexity comment_ratio smell_density : Q) :
  _calculate_quality_score avg_complexity comment_ratio smell_density
  == (4 # 10) * Spec.clamp 0 100 (Spec.complexitySubScore avg_complexity)
     + (3 # 10) * Spec.docSubScore comment_ratio
     + (3 # 10) * Spec.clamp 0 100 (Spec.smellSubScore smell_density).
Proof.
  unfold _calculate_quality_score, Spec.clamp, Spec.complexitySubScore,
    Spec.docSubScore, Spec.smellSubScore, Py.gt.
  destruct (Qle_bool avg_complexity 5) eqn:E; cbn [negb]; case_min_max; lra.
Qed.

Lemma quality_score_upper (avg_complexity comment_ratio smell_density : Q) :
  _calculate_quality_score avg_complexity comment_ratio smell_density <= 100.
Proof.
  rewrite quality_score_as_computed.
  unfold Spec.clamp, Spec.complexitySubScore, Spec.docSubScore, Spec.smellSubScore.
  destruct (Qle_bool avg_complexity 5); case_min_max; lra.
Qed.


Lemma quality_score_range (avg_complexity comment_ratio smell_density : Q) :
  0 <= comment_ratio ->
  0 <= _calculate_quality_score avg_complexity comment_ratio smell_density <= 100.
Proof.
  intros Hr. split; [|apply quality_score_upper].
  rewrite quality_score_as_computed.
  unfold Spec.clamp, Spec.complexitySubScore, Spec.docSubScore, Spec.smellSubScore.
  destruct (Qle_bool avg_complexity 5); case_min_max; lra.
Qed.

Lemma clamp_range (x : Q) : 0 <= Spec.clamp 0 100 x <= 100.
Proof. unfold Spec.clamp. case_min_max; lra. Qed.

(** The lower clamp is missing on the documentation sub-score only; a
    negative comment ratio, which no analysed file has, would show it. *)
Remark quality_score_negative_ratio : _calculate_quality_score 0 (-1) 0 == -20.
Proof. vm_compute. reflexivity. Qed.

Lemma sum_loop_nonneg (xs : list Q) (acc : Q) :
  0 <= acc -> Forall (fun x => 0 <= x) xs -> 0 <= fold_left Qplus xs acc.
Proof.
  intros Hacc Hall. revert acc Hacc.
  induction Hall as [|x xs Hx _ IH]; intros acc Hacc; [exact Hacc|].
  cbn [fold_left]. apply IH. lra.
Qed.

Lemma mean_or_0_nonneg (xs : list Q) :
  Forall (fun x => 0 <= x) xs -> 0 <= mean_or_0 xs.
Proof.
  intros Hall. destruct xs as [|x xs]; [cbn; lra|].
  unfold mean_or_0, Py.np_mean, Py.sum.
  apply Qle_shift_div_l.
  - change 0 with (inject_Z 0). rewrite <- Zlt_Qlt. cbn [length]. lia.
  - rewrite Qmult_0_l. apply sum_loop_nonneg; [lra|exact Hall].
Qed.

Lemma avg_comment_ratio_nonneg (nlp_analyses : list analysis) :
  Forall (fun a => 0 <= get0 (metrics a) "comment_ratio") nlp_analyses ->
  0 <= avg_comment_ratio_of nlp_analyses.
Proof.
  intros Hall. apply mean_or_0_nonneg, Forall_map.
  eapply Forall_impl; [exact Hall|]. auto.
Qed.

(** Rounding to an integer stays between integer bounds. *)
Lemma round_half_even_range (lo hi : Z) (q : Q) :
  inject_Z lo <= q <= inject_Z hi -> (lo <= Py.round_half_even q <= hi)%Z.
Proof.
  intros [Hlo Hhi]. unfold Py.round_half_even.
  assert (Hflo : (lo <= Qfloor q)%Z).
  { rewrite <- (Qfloor_Z lo). apply Qfloor_resp_le, Hlo. }
  assert (Hfhi : (Qfloor q <= hi)%Z).
  { rewrite <- (Qfloor_Z hi). apply Qfloor_resp_le, Hhi. }
  pose proof (Qfloor_le q) as Hf.
  destruct (Z.eq_dec (Qfloor q) hi) as [Heq|Hne].
  - assert (Hq : q - inject_Z (Qfloor q) < 1 # 2) by (rewrite Heq in *; lra).
    destruct (Qcompare (q - inject_Z (Qfloor q)) (1 # 2)) eqn:E; [|lia|].
    + apply Qeq_alt in E. lra.
    + apply Qgt_alt in E. lra.
  - destruct (Qcompare (q - inject_Z (Qfloor q)) (1 # 2)); [|lia|lia].
    destruct (Z.even (Qfloor q)); lia.
Qed.

Lemma round1_range (q : Q) : 0 <= q <= 100 -> 0 <= Py.round q 1 <= 100.
Proof.
  intros Hq. unfold Py.round. rewrite Qred_correct.
  change (inject_Z (10 ^ Z.of_nat 1)) with 10.
  destruct (round_half_even_range 0 1000 (q * 10)) as [Hlo Hhi].
  { change (inject_Z 0) with 0. change (inject_Z 1000) with 1000. lra. }
  rewrite Zle_Qle in Hlo, Hhi.
  change (inject_Z 0) with 0 in Hlo. change (inject_Z 1000) with 1000 in Hhi.
  set (r := inject_Z (Py.round_half_even (q * 10))) in *. clearbody r.
  split.
  - apply Qle_shift_div_l; lra.
  - apply Qle_shift_div_r; lra.
Qed.




(** The quality score of the worked batch: complexity 100, documentation
    30, no smells. *)
Example scenario1_quality :
  _calculate_quality_kpis scenario1 !! "quality_score" = Some 79.
Proof. vm_compute. reflexivity. Qed.

(** ** Security *)

Lemma is_security_smell_spec (smell : string) :
  is_security_smell smell = Spec.is_security_issue smell.
Proof. reflexivity. Qed.

Lemma security_inner_loop (ss : list string) (n : nat) :
  fold_left (fun security_issues smell =>
               if is_security_smell smell then (security_issues + 1)%nat else security_issues)
            ss n
  = (n + length (filter (fun s => Spec.is_security_issue s = true) ss))%nat.
Proof.
  revert n. induction ss as [|s ss IH]; intros n; [cbn; lia|].
  cbn [fold_left]. rewrite IH, filter_cons, is_security_smell_spec.
  destruct (Spec.is_security_issue s) eqn:E.
  - rewrite decide_True by reflexivity. cbn [length]. lia.
  - rewrite decide_False by discriminate. reflexivity.
Qed.

Lemma count_security_issues_spec (nlp_analyses : list analysis) :
  count_security_issues nlp_analyses
  = length (filter (fun s => Spec.is_security_issue s = true) (all_smells nlp_analyses)).
Proof.
  unfold count_security_issues, all_smells.
  enough (H : forall n,
             fold_left (fun security_issues a =>
                          fold_left (fun security_issues smell =>
                                       if is_security_smell smell
                                       then (security_issues + 1)%nat else security_issues)
                                    (smells a) security_issues)
                       nlp_analyses n
             = (n + length (filter (fun s => Spec.is_security_issue s = true)
                                   (concat (map smells nlp_analyses))))%nat)
    by (rewrite H; reflexivity).
  induction nlp_analyses as [|a l IH]; intros n; [cbn; lia|].
  cbn [fold_left map concat]. rewrite IH, security_inner_loop, filter_app, length_app. lia.
Qed.

Lemma total_smells_spec (nlp_analyses : list analysis) :
  total_smells_of nlp_analyses = length (all_smells nlp_analyses).
Proof.
  unfold total_smells_of, all_smells.
  enough (H : forall n,
             fold_left (fun n a => (n + length (smells a))%nat) nlp_analyses n
             = (n + length (concat (map smells nlp_analyses)))%nat)
    by (rewrite H; reflexivity).
  induction nlp_analyses as [|a l IH]; intros n; [cbn; lia|].
  cbn [fold_left map concat]. rewrite IH, length_app. lia.
Qed.

Lemma count_max_complexity_above_spec (limit : Q) (nlp_analyses : list analysis) :
  count_max_complexity_above limit nlp_analyses
  = length (filter (fun a => limit < get0 (metrics a) "max_complexity") nlp_analyses).
Proof.
  unfold count_max_complexity_above. f_equal.
  apply list_filter_iff. intros a. apply gt_true.
Qed.

Lemma password_smell_counted (nlp_analyses : list analysis) (a : analysis) :
  a ∈ nlp_analyses ->
  "Hardcoded password found" ∈ smells a ->
  (1 <= count_security_issues nlp_analyses)%nat.
Proof.
  intros Ha Hs. rewrite count_security_issues_spec.
  assert (Hin : "Hardcoded password found"
                ∈ filter (fun s => Spec.is_security_issue s = true)
                         (all_smells nlp_analyses)).
  { apply list_elem_of_filter. split; [reflexivity|].
    unfold all_smells. apply list_elem_of_In, in_concat.
    exists (smells a). split; [|apply list_elem_of_In, Hs].
    apply in_map, list_elem_of_In, Ha. }
  destruct (filter _ (all_smells nlp_analyses)); [inversion Hin | cbn; lia].
Qed.

(** C7. For a non-empty batch, security_issue_count is the number of smell
    strings that contain one of the five keywords, letter case ignored;
    risk_score is 10 x issues + 5 x files with max complexity above 15 +
    2 x smells, clamped to [0,100]; and a batch with a file whose smells
    include "Hardcoded password found" has security_issue_count >= 1. *)
Theorem security_counts_and_risk
    (nlp_analyses : list analysis) (repo : repo_data)
    (commits : option (list commit_summary)) (prs : option (list pr_summary))
    (now : string) :
  nlp_analyses <> [] ->
  let sec := security (calculate_kpis nlp_analyses repo commits prs now) in
  let securityIssues :=
    length (filter (fun s => Spec.is_security_issue s = true) (all_smells nlp_analyses)) in
  let highComplexityFiles :=
    length (filter (fun a => 15 < get0 (metrics a) "max_complexity") nlp_analyses) in
  let totalSmells := length (all_smells nlp_analyses) in
  sec !! "security_issue_count" = Some (ofnat securityIssues)
  /\ sec !! "risk_score"
     = Some (ofZ (Z.max 0 (Z.min 100 (10 * Z.of_nat securityIssues
                                      + 5 * Z.of_nat highComplexityFiles
                                      + 2 * Z.of_nat totalSmells))))
  /\ sec !! "high_complexity_files" = Some (ofnat highComplexityFiles)
  /\ ((exists a, a ∈ nlp_analyses /\ "Hardcoded password found" ∈ smells a) ->
      (1 <= securityIssues)%nat).
Proof.
  intros Hne. cbn zeta.
  assert (security (calculate_kpis nlp_analyses repo commits prs now)
          = _calculate_security_kpis nlp_analyses) as ->.
  { destruct nlp_analyses; [contradiction|reflexivity]. }
  unfold _calculate_security_kpis, risk_score_of.
  rewrite <- count_security_issues_spec, <- total_smells_spec,
    <- count_max_complexity_above_spec.
  split; [|split; [|split]].
  - apply lookup_insert_eq.
  - rewrite lookup_insert_ne by discriminate. rewrite lookup_insert_eq.
    do 2 f_equal. lia.
  - do 2 (rewrite lookup_insert_ne by discriminate). apply lookup_singleton_eq.
  - intros (a & Ha & Hs). exact (password_smell_counted nlp_analyses a Ha Hs).
Qed.

Lemma security_counts_and_risk_witness :
  security (calculate_kpis [leaky_file] no_repo None None "t") !! "security_issue_count"
  = Some 1
  /\ security (calculate_kpis [leaky_file] no_repo None None "t") !! "risk_score"
     = Some 17
  /\ (1 <= length (filter (fun s => Spec.is_security_issue s = true)
                          (all_smells [leaky_file])))%nat.
Proof.
  destruct (security_counts_and_risk [leaky_file] no_repo None None "t")
    as (Hcount & Hrisk & _ & Hpassword); [discriminate|].
  split; [exact Hcount|]. split; [exact Hrisk|].
  apply Hpassword. exists leaky_file. split; constructor.
Defined.

(** ** Unsupported extensions *)

Example file_ext_of_examples :
  file_ext_of "README.md" = "md" /\ file_ext_of "Makefile" = ""
  /\ file_ext_of "archive.tar.gz" = "gz" /\ file_ext_of "main.PY" = "PY"
  /\ file_ext_of "app.py" = "py".
Proof. repeat split. Qed.

Lemma str_in_elem (x : string) (xs : list string) : str_in x xs = true <-> x ∈ xs.
Proof.
  unfold str_in. rewrite existsb_exists. split.
  - intros (y & Hy & Heq). apply String.eqb_eq in Heq as ->. apply list_elem_of_In, Hy.
  - intros Hx. exists x. split; [apply list_elem_of_In, Hx | apply String.eqb_refl].
Qed.

Section AnalyzerFacts.

Variable analyze_supported : analysis -> string -> string -> bool -> analysis.

Lemma nlp_analyses_of_map (important_files : list FileData.t) :
  nlp_analyses_of analyze_supported important_files
  = map (fun file_data =>
           analyze_code_file analyze_supported (FileData.name file_data)
                             (FileData.content file_data) false)
        important_files.
Proof.
  unfold nlp_analyses_of.
  enough (H : forall acc,
             fold_left (fun nlp_analyses file_data =>
                          nlp_analyses
                          ++ [analyze_code_file analyze_supported (FileData.name file_data)
                                                (FileData.content file_data) false])
                       important_files acc
             = acc ++ map (fun file_data =>
                             analyze_code_file analyze_supported (FileData.name file_data)
                                               (FileData.content file_data) false)
                          important_files)
    by apply H.
  induction important_files as [|f l IH]; intros acc; cbn [fold_left map].
  - symmetry. apply app_nil_r.
  - rewrite IH, <- app_assoc. reflexivity.
Qed.

(** C8. For a file name whose extension is not a supported code extension,
    and any content and mode, [analyze_code_file] returns the initial
    record: no metrics, no smells, no error, so that every numeric field
    reads as 0 and its feature vector is twelve zeros; and the batch loop
    keeps that record, at the position of its file. *)
Theorem unsupported_extension_empty_record
    (filename content : string) (fast_mode : bool) :
  file_ext_of filename ∉ code_extensions ->
  let r := analyze_code_file analyze_supported filename content fast_mode in
  r = initial_results filename
  /\ metrics r = ∅ /\ naming r = ∅ /\ semantic r = None
  /\ smells r = [] /\ error r = None
  /\ (forall k, get0 (metrics r) k = 0)
  /\ file_features r = replicate 12 0
  /\ (forall (important_files : list FileData.t) (i : nat) (file_data : FileData.t),
        important_files !! i = Some file_data ->
        FileData.name file_data = filename ->
        nlp_analyses_of analyze_supported important_files !! i
        = Some (initial_results filename))
  /\ (forall important_files : list FileData.t,
        length (nlp_analyses_of analyze_supported important_files)
        = length important_files).
Proof.
  intros Hext. cbn zeta.
  assert (Hgate : forall c m, analyze_code_file analyze_supported filename c m
                              = initial_results filename).
  { intros c m. unfold analyze_code_file.
    destruct (str_in (file_ext_of filename) code_extensions) eqn:E; [|reflexivity].
    apply str_in_elem in E. contradiction. }
  rewrite Hgate. do 6 (split; [reflexivity|]). split; [|split; [|split]].
  - intros k. unfold get0. cbn. rewrite lookup_empty. reflexivity.
  - reflexivity.
  - intros files i f Hi Hname. rewrite nlp_analyses_of_map, list_lookup_fmap, Hi.
    cbn. rewrite Hname, Hgate. reflexivity.
  - intros files. rewrite nlp_analyses_of_map. apply length_map.
Qed.

End AnalyzerFacts.

Lemma unsupported_extension_empty_record_witness :
  analyze_code_file (fun results _ _ _ => results) "README.md" "# gitpro" false
  = initial_results "README.md".
Proof.
  apply (unsupported_extension_empty_record (fun results _ _ _ => results)
                                            "README.md" "# gitpro" false).
  intros H. apply str_in_elem in H. discriminate H.
Defined.

(** * Further properties of the code *)

(** ** Rounding *)

Lemma round_half_even_near (q : Q) :
  Py.round_half_even q = Qfloor q \/ Py.round_half_even q = (Qfloor q + 1)%Z.
Proof.
  unfold Py.round_half_even.
  destruct (Qcompare (q - inject_Z (Qfloor q)) (1 # 2)); auto.
  destruct (Z.even (Qfloor q)); auto.
Qed.

Lemma round_half_even_comp (p q : Q) :
  p == q -> Py.round_half_even p = Py.round_half_even q.
Proof.
  intros Hpq. unfold Py.round_half_even.
  rewrite (Qfloor_comp p q Hpq).
  assert (Hc : Qcompare (p - inject_Z (Qfloor q)) (1 # 2)
               = Qcompare (q - inject_Z (Qfloor q)) (1 # 2)).
  { apply Qcompare_comp; [rewrite Hpq|]; reflexivity. }
  rewrite Hc. reflexivity.
Qed.

Lemma round_comp (p q : Q) (ndigits : nat) : p == q -> Py.round p ndigits = Py.round q ndigits.
Proof.
  intros Hpq. unfold Py.round. apply Qred_complete.
  set (scale := inject_Z (10 ^ Z.of_nat ndigits)).
  rewrite (round_half_even_comp (p * scale) (q * scale)); [reflexivity|].
  rewrite Hpq. reflexivity.
Qed.

Lemma round_half_even_mono (p q : Q) :
  p <= q -> (Py.round_half_even p <= Py.round_half_even q)%Z.
Proof.
  intros Hpq.
  pose proof (Qfloor_resp_le p q Hpq) as Hfl.
  destruct (Z.eq_dec (Qfloor p) (Qfloor q)) as [Heq|Hne].
  - unfold Py.round_half_even. rewrite Heq.
    destruct (Qcompare (p - inject_Z (Qfloor q)) (1 # 2)) eqn:Ep;
      destruct (Qcompare (q - inject_Z (Qfloor q)) (1 # 2)) eqn:Ecq;
      try (destruct (Z.even (Qfloor q)); lia); try lia; exfalso;
      repeat match goal with
             | H : Qcompare _ _ = Eq |- _ => apply Qeq_alt in H
             | H : Qcompare _ _ = Lt |- _ => apply Qlt_alt in H
             | H : Qcompare _ _ = Gt |- _ => apply Qgt_alt in H
             end; lra.
  - destruct (round_half_even_near p) as [-> | ->];
      destruct (round_half_even_near q) as [-> | ->]; lia.
Qed.

Lemma scale_pos (ndigits : nat) : 0 < inject_Z (10 ^ Z.of_nat ndigits).
Proof.
  change 0 with (inject_Z 0). rewrite <- Zlt_Qlt. apply Z.pow_pos_nonneg; lia.
Qed.

Lemma round_mono (p q : Q) (ndigits : nat) :
  p <= q -> Py.round p ndigits <= Py.round q ndigits.
Proof.
  intros Hpq. unfold Py.round. rewrite !Qred_correct.
  pose proof (scale_pos ndigits) as Hs.
  set (scale := inject_Z (10 ^ Z.of_nat ndigits)) in *.
  assert (Hm : (Py.round_half_even (p * scale) <= Py.round_half_even (q * scale))%Z).
  { apply round_half_even_mono. apply Qmult_le_compat_r; [exact Hpq|]. lra. }
  rewrite Zle_Qle in Hm.
  unfold Qdiv. apply Qmult_le_compat_r; [exact Hm|].
  apply Qlt_le_weak, Qinv_lt_0_compat, Hs.
Qed.

(** An integer is a fixed point of [round]. *)
Lemma round_integer (z : Z) (ndigits : nat) : Py.round (inject_Z z) ndigits == inject_Z z.
Proof.
  unfold Py.round. rewrite Qred_correct.
  pose proof (scale_pos ndigits) as Hs.
  assert (Hr : Py.round_half_even (inject_Z z * inject_Z (10 ^ Z.of_nat ndigits))
               = (z * 10 ^ Z.of_nat ndigits)%Z).
  { rewrite (round_half_even_comp _ (inject_Z (z * 10 ^ Z.of_nat ndigits)))
      by (rewrite inject_Z_mult; reflexivity).
    unfold Py.round_half_even. rewrite Qfloor_Z.
    destruct (Qcompare _ _) eqn:E; [|reflexivity|]; exfalso.
    - apply Qeq_alt in E. lra.
    - apply Qgt_alt in E. lra. }
  rewrite Hr, inject_Z_mult. field. lra.
Qed.

(** Rounding to any number of decimals stays between integer bounds. *)
Lemma round_range (lo hi : Z) (q : Q) (ndigits : nat) :
  inject_Z lo <= q <= inject_Z hi ->
  inject_Z lo <= Py.round q ndigits <= inject_Z hi.
Proof.
  intros [Hlo Hhi]. split.
  - rewrite <- (round_integer lo ndigits). apply round_mono, Hlo.
  - rewrite <- (round_integer hi ndigits). apply round_mono, Hhi.
Qed.

(** ** Productivity: ranges and saturation *)

Lemma ofnat_nonneg (n : nat) : 0 <= ofnat n.
Proof. unfold ofnat. change 0 with (inject_Z 0). rewrite <- Zle_Qle. lia. Qed.

Lemma ofnat_le (m n : nat) : (m <= n)%nat -> ofnat m <= ofnat n.
Proof. intros H. unfold ofnat. rewrite <- Zle_Qle. lia. Qed.

Lemma ofnat_pos (n : nat) : (0 < n)%nat -> 0 < ofnat n.
Proof. intros H. unfold ofnat. change 0 with (inject_Z 0). rewrite <- Zlt_Qlt. lia. Qed.

(** A share [m / max(n, 1) * 100] with [m <= n] is a percentage. *)
Lemma percentage_range (m n : nat) :
  (m <= n)%nat -> 0 <= ofnat m / ofnat (Nat.max n 1) * 100 <= 100.
Proof.
  intros Hmn.
  pose proof (ofnat_nonneg m) as Hm.
  pose proof (ofnat_le m (Nat.max n 1) ltac:(lia)) as Hle.
  pose proof (ofnat_pos (Nat.max n 1) ltac:(lia)) as Hpos.
  set (a := ofnat m) in *. set (b := ofnat (Nat.max n 1)) in *. clearbody a b.
  assert (H0 : 0 <= a / b) by (apply Qle_shift_div_l; lra).
  assert (H1 : a / b <= 1) by (apply Qle_shift_div_r; lra).
  lra.
Qed.

(** Division by the constants 10 and 5, as a product. *)
Ltac no_div :=
  unfold Qdiv in *;
  change (/ 10) with (1 # 10) in *;
  change (/ 5) with (1 # 5) in *.

Lemma capped_score_range (x : Q) : 0 <= x -> 0 <= Py.min 100 x <= 100.
Proof. intros Hx. case_min_max; lra. Qed.



Lemma merged_le_count (prs : list pr_summary) :
  (length (filter (fun pr => truthy_opt (merged_at pr) = true) prs) <= length prs)%nat.
Proof. apply length_filter. Qed.

(** The three component scores and the merge rate of the second return. *)
Lemma productivity_components
    (commits : option (list commit_summary)) (prs : option (list pr_summary)) :
  negb (truthy_list commits) && negb (truthy_list prs) = false ->
  exists commit_score pr_score contributor_score pr_merge_rate : Q,
    _calculate_productivity_kpis commits prs
    = {[ "productivity_score" :=
           Py.round (commit_score * (4 # 10) + pr_score * (3 # 10)
                     + contributor_score * (3 # 10)) 1;
         "commit_frequency" :=
           ofnat (if truthy_list commits then length (or_nil commits) else 0%nat);
         "pr_merge_rate" := Py.round pr_merge_rate 1;
         "avg_pr_size" := 0;
         "active_contributors" := ofnat (size (contributors_of commits)) ]}
    /\ 0 <= commit_score <= 100 /\ 0 <= pr_score <= 100
    /\ 0 <= contributor_score <= 100 /\ 0 <= pr_merge_rate <= 100
    /\ (truthy_list commits = false -> commit_score == 0 /\ contributor_score == 0)
    /\ (truthy_list commits = true -> 10 <= commit_score)
    /\ (truthy_list prs = false -> pr_score == 50 /\ pr_merge_rate == 0)
    /\ (truthy_list prs = true -> pr_score == pr_merge_rate).
Proof.
  intros Hactive. unfold _calculate_productivity_kpis. rewrite Hactive.
  eexists _, _, _, _. split; [reflexivity|].
  assert (Hrate : forall l : list pr_summary,
             0 <= ofnat (length (filter (fun pr => truthy_opt (merged_at pr) = true) l))
                  / ofnat (Nat.max (length l) 1) * 100 <= 100).
  { intros l. apply percentage_range, merged_le_count. }
  split; [|split; [|split; [|split; [|split; [|split; [|split]]]]]].
  - apply capped_score_range.
    pose proof (ofnat_nonneg (if truthy_list commits
                              then length (or_nil commits) else 0%nat)) as Hn.
    set (n := ofnat _) in *. clearbody n. no_div. lra.
  - destruct prs as [[|pr l]|]; cbn [truthy_list or_nil default length Nat.ltb Nat.leb];
      try lra. apply (Hrate (pr :: l)).
  - apply capped_score_range.
    pose proof (ofnat_nonneg (size (contributors_of commits))) as Hn.
    set (n := ofnat _) in *. clearbody n. no_div. lra.
  - destruct prs as [[|pr l]|]; cbn [truthy_list or_nil default length Nat.ltb Nat.leb];
      try lra. apply (Hrate (pr :: l)).
  - intros Hc. rewrite Hc. unfold contributors_of. rewrite Hc, size_empty.
    split; vm_compute; reflexivity.
  - intros Hc. rewrite Hc. destruct commits as [[|c l]|]; try discriminate.
    cbn [or_nil default length]. unfold id. cbn [length].
    pose proof (ofnat_le 1 (S (length l)) ltac:(lia)) as H1.
    change (ofnat 1) with 1 in H1.
    set (n := ofnat (S (length l))) in *. clearbody n. no_div. case_min_max; lra.
  - intros Hp. rewrite Hp. destruct prs as [[|pr l]|]; try discriminate; split; reflexivity.
  - intros Hp. destruct prs as [[|pr l]|]; try discriminate. reflexivity.
Qed.

(** Reading a key of a dict literal. *)
Ltac lookup_lit :=
  repeat first [ apply lookup_insert_eq
               | apply lookup_singleton_eq
               | rewrite lookup_insert_ne by discriminate ].

Lemma both_falsy_or_active {A B} (x : option (list A)) (y : option (list B)) :
  (truthy_list x = false /\ truthy_list y = false)
  \/ negb (truthy_list x) && negb (truthy_list y) = false.
Proof. destruct (truthy_list x), (truthy_list y); auto. Qed.

(** X1. Whatever the activity lists, productivity_score and pr_merge_rate
    are both between 0 and 100. *)
Theorem productivity_fields_are_percentages
    (commits : option (list commit_summary)) (prs : option (list pr_summary)) :
  exists score rate : Q,
    _calculate_productivity_kpis commits prs !! "productivity_score" = Some score
    /\ _calculate_productivity_kpis commits prs !! "pr_merge_rate" = Some rate
    /\ 0 <= score <= 100 /\ 0 <= rate <= 100.
Proof.
  destruct (both_falsy_or_active commits prs) as [[Hc Hp]|Hactive].
  - unfold _calculate_productivity_kpis. rewrite Hc, Hp. cbn [negb andb].
    exists 0, 0. split; [lookup_lit|]. split; [lookup_lit|]. lra.
  - destruct (productivity_components commits prs Hactive)
      as (cs & ps & ks & rate & -> & Hcs & Hps & Hks & Hrate & _).
    eexists _, _. split; [lookup_lit|]. split; [lookup_lit|]. split.
    + apply (round_range 0 100). change (inject_Z 0) with 0.
      change (inject_Z 100) with 100. lra.
    + apply (round_range 0 100). exact Hrate.
Qed.


(** X3. With commits but no pull requests the score lies between 19 and
    85: the default of 50 for the missing PR workflow is worth 15 points,
    one commit at least 4, and a merge rate is never credited. *)
Theorem commits_without_prs_score
    (commits : option (list commit_summary)) (prs : option (list pr_summary)) :
  truthy_list commits = true ->
  truthy_list prs = false ->
  exists score : Q,
    _calculate_productivity_kpis commits prs !! "productivity_score" = Some score
    /\ 19 <= score <= 85.
Proof.
  intros Hc Hp.
  destruct (productivity_components commits prs) as
    (cs & ps & ks & rate & -> & Hcs & Hps & Hks & Hrate & _ & Hlow & Hdefault & _).
  { rewrite Hc. reflexivity. }
  destruct (Hdefault Hp) as [Hps50 _]. specialize (Hlow Hc).
  eexists. split; [lookup_lit|].
  apply (round_range 19 85). change (inject_Z 19) with 19.
  change (inject_Z 85) with 85. rewrite Hps50. lra.
Qed.


Lemma commits_without_prs_score_witness :
  exists score : Q,
    _calculate_productivity_kpis (Some [user1_commit]) None !! "productivity_score"
    = Some score
    /\ 19 <= score <= 85.
Proof.
  apply (commits_without_prs_score (Some [user1_commit]) None); reflexivity.
Defined.


Lemma all_merged_count (prs : list pr_summary) :
  Forall (fun pr => truthy_opt (merged_at pr) = true) prs ->
  length (filter (fun pr => truthy_opt (merged_at pr) = true) prs) = length prs.
Proof.
  induction 1 as [|pr l Hpr _ IH]; [reflexivity|].
  rewrite filter_cons, decide_True by exact Hpr. cbn [length]. rewrite IH. reflexivity.
Qed.

(** X5. Ten or more commits by five or more distinct authors, with at
    least one pull request and every pull request merged, give the full
    score of 100. *)
Theorem productivity_saturates
    (commits : list commit_summary) (prs : list pr_summary) :
  (10 <= length commits)%nat ->
  (5 <= size (contributors_of (Some commits)))%nat ->
  prs <> [] ->
  Forall (fun pr => truthy_opt (merged_at pr) = true) prs ->
  _calculate_productivity_kpis (Some commits) (Some prs) !! "productivity_score"
  = Some 100.
Proof.
  intros Hn Hk Hprs Hall.
  destruct (productivity_components (Some commits) (Some prs)) as (cs & ps & ks & rate & Heq & _).
  { destruct prs; [contradiction|]. apply andb_false_r. }
  clear cs ps ks rate Heq.
  unfold _calculate_productivity_kpis.
  destruct prs as [|pr l]; [contradiction|].
  destruct commits as [|c cl]; [cbn in Hn; lia|].
  cbn [truthy_list negb andb or_nil default]. unfold id.
  rewrite (all_merged_count (pr :: l) Hall).
  change (0 <? length (pr :: l))%nat with true. cbn iota.
  rewrite lookup_insert_eq. f_equal.
  transitivity (Py.round 100 1); [apply round_comp | vm_compute; reflexivity].
  pose proof (ofnat_le 10 (length (c :: cl)) Hn) as Hn'.
  pose proof (ofnat_le 5 _ Hk) as Hk'.
  change (ofnat 10) with 10 in Hn'. change (ofnat 5) with 5 in Hk'.
  assert (Hrate : ofnat (length (pr :: l)) / ofnat (Nat.max (length (pr :: l)) 1) * 100
                  == 100).
  { rewrite Nat.max_l by (cbn; lia). field.
    pose proof (ofnat_pos (length (pr :: l)) ltac:(cbn; lia)). lra. }
  rewrite Hrate.
  set (n := ofnat (length (c :: cl))) in *.
  set (k := ofnat (size (contributors_of (Some (c :: cl))))) in *.
  clearbody n k. no_div. case_min_max; lra.
Qed.

Lemma productivity_saturates_witness :
  _calculate_productivity_kpis (Some busy_commits) (Some [merged_pr; merged_pr])
  !! "productivity_score" = Some 100.
Proof.
  apply (productivity_saturates busy_commits [merged_pr; merged_pr]).
  - cbn. lia.
  - vm_compute. lia.
  - discriminate.
  - repeat constructor.
Defined.

(** ** Grades and the overall score *)

Lemma ge_true (a b : Q) : ge a b = true <-> b <= a.
Proof. unfold ge. apply Qle_bool_iff. Qed.

Lemma ge_false (a b : Q) : ge a b = false <-> a < b.
Proof.
  unfold ge. rewrite <- not_true_iff_false, Qle_bool_iff.
  split; [apply Qnot_le_lt | apply Qlt_not_le].
Qed.

Lemma grade_not_na (score : Q) : _score_to_grade score <> "N/A".
Proof.
  unfold _score_to_grade.
  repeat match goal with |- context [if ?b then _ else _] => destruct b end;
    discriminate.
Qed.

(** X6. The grade is A from 90, B from 80, C from 70, D from 60 and F
    below, and nothing else. *)
Theorem grade_thresholds (score : Q) :
  (_score_to_grade score = "A" <-> 90 <= score)
  /\ (_score_to_grade score = "B" <-> 80 <= score < 90)
  /\ (_score_to_grade score = "C" <-> 70 <= score < 80)
  /\ (_score_to_grade score = "D" <-> 60 <= score < 70)
  /\ (_score_to_grade score = "F" <-> score < 60)
  /\ _score_to_grade score ∈ ["A"; "B"; "C"; "D"; "F"].
Proof.
  unfold _score_to_grade.
  destruct (ge score 90) eqn:E90; [apply ge_true in E90 | apply ge_false in E90];
  [|destruct (ge score 80) eqn:E80; [apply ge_true in E80 | apply ge_false in E80];
    [|destruct (ge score 70) eqn:E70; [apply ge_true in E70 | apply ge_false in E70];
      [|destruct (ge score 60) eqn:E60;
        [apply ge_true in E60 | apply ge_false in E60]]]];
  (repeat split; try discriminate; try lra; try (intros; lra);
   try (intros [? ?]; lra); repeat constructor).
Qed.

(** X7. A higher score never gives a lower grade. *)
Theorem grade_monotone (s1 s2 : Q) :
  s1 <= s2 -> (grade_rank (_score_to_grade s1) <= grade_rank (_score_to_grade s2))%nat.
Proof.
  intros Hle. unfold _score_to_grade.
  repeat match goal with
         | |- context [ge ?a ?b] =>
           let E := fresh "E" in
           destruct (ge a b) eqn:E; [apply ge_true in E | apply ge_false in E]
         end; cbn; try lia; exfalso; lra.
Qed.

Lemma grade_monotone_witness :
  (grade_rank (_score_to_grade 42) <= grade_rank (_score_to_grade (855 # 10)))%nat.
Proof. apply grade_monotone. discriminate. Defined.

(** X8. The summary counts the records, and the sentinel grade "N/A" and
    the missing timestamp mark exactly the empty batch; otherwise the grade
    is the letter of the overall score. *)
Theorem summary_marks_empty_batch
    (nlp_analyses : list analysis) (repo : repo_data)
    (commits : option (list commit_summary)) (prs : option (list pr_summary))
    (now : string) :
  let s := summary (calculate_kpis nlp_analyses repo commits prs now) in
  analyzed_files s = length nlp_analyses
  /\ (grade s = "N/A" <-> nlp_analyses = [])
  /\ (timestamp s = None <-> nlp_analyses = [])
  /\ (nlp_analyses <> [] ->
      grade s = _score_to_grade (overall_health_score s) /\ timestamp s = Some now).
Proof.
  destruct nlp_analyses as [|a l]; cbn.
  - repeat split; auto; contradiction.
  - split; [reflexivity|]. split; [|split].
    + split; [|discriminate]. intros Hna. exfalso.
      exact (grade_not_na _ Hna).
    + split; discriminate.
    + intros _. split; reflexivity.
Qed.

(** ** Health of a batch *)

Lemma sum_loop_le (hi : Q) (xs : list Q) (acc : Q) :
  Forall (fun x => x <= hi) xs ->
  fold_left Qplus xs acc <= acc + hi * ofnat (length xs).
Proof.
  intros Hall. revert acc.
  induction Hall as [|x xs Hx _ IH]; intros acc.
  - cbn [fold_left length]. change (ofnat 0) with 0. lra.
  - cbn [fold_left length]. eapply Qle_trans; [apply IH|].
    unfold ofnat. rewrite Nat2Z.inj_succ, <- Z.add_1_r, inject_Z_plus.
    change (inject_Z 1) with 1. lra.
Qed.

Lemma mean_or_0_range (hi : Q) (xs : list Q) :
  0 <= hi -> Forall (fun x => 0 <= x <= hi) xs -> 0 <= mean_or_0 xs <= hi.
Proof.
  intros Hhi Hall. split.
  - apply mean_or_0_nonneg. eapply Forall_impl; [exact Hall|]. intros x [H _]. exact H.
  - destruct xs as [|x xs]; [exact Hhi|].
    unfold mean_or_0, Py.np_mean, Py.sum.
    apply Qle_shift_div_r.
    + apply (ofnat_pos (length (x :: xs))). cbn. lia.
    + eapply Qle_trans; [apply (sum_loop_le hi)|].
      * eapply Forall_impl; [exact Hall|]. intros y [_ H]. exact H.
      * unfold ofnat. lra.
Qed.

(** X9. For a non-empty batch whose comment ratios are not negative and
    whose maintainability indices lie in [0,100] (the range of radon's
    index), the overall health score lies in [0,100]. *)
Theorem overall_health_in_range
    (nlp_analyses : list analysis) (repo : repo_data)
    (commits : option (list commit_summary)) (prs : option (list pr_summary))
    (now : string) :
  nlp_analyses <> [] ->
  Forall (fun a => 0 <= get0 (metrics a) "comment_ratio") nlp_analyses ->
  Forall (fun a => 0 <= get0 (metrics a) "maintainability_index" <= 100) nlp_analyses ->
  0 <= overall_health_score (summary (calculate_kpis nlp_analyses repo commits prs now))
    <= 100.
Proof.
  intros Hne Hcr Hmi.
  destruct nlp_analyses as [|a0 l]; [contradiction|].
  set (nlp := a0 :: l) in *.
  cbn [calculate_kpis summary overall_health_score].
  fold nlp. unfold _calculate_overall_score.
  assert (Hq : 0 <= get0 (_calculate_quality_kpis nlp) "quality_score" <= 100).
  { unfold _calculate_quality_kpis, get0. rewrite lookup_insert_eq. cbn [default].
    apply round1_range, quality_score_range, avg_comment_ratio_nonneg, Hcr. }
  assert (Hm : 0 <= get0 (_calculate_maintainability_kpis nlp) "maintainability_index"
               <= 100).
  { unfold _calculate_maintainability_kpis, get0. rewrite lookup_insert_eq.
    cbn [default]. apply (round_range 0 100).
    change (inject_Z 0) with 0. change (inject_Z 100) with 100.
    apply mean_or_0_range; [lra|].
    apply Forall_map, Forall_forall. intros a Ha.
    apply list_elem_of_filter in Ha as [_ Ha].
    rewrite Forall_forall in Hmi. apply (Hmi a Ha). }
  apply (round_range 0 100).
  change (inject_Z 0) with 0. change (inject_Z 100) with 100. lra.
Qed.

Lemma overall_health_in_range_witness :
  0 <= overall_health_score (summary (calculate_kpis [leaky_file] no_repo None None "t"))
    <= 100.
Proof.
  apply (overall_health_in_range [leaky_file] no_repo None None "t").
  - discriminate.
  - repeat constructor; discriminate.
  - repeat constructor; discriminate.
Defined.

(** ** A batch of unsupported files only *)

Lemma sum_loop_zeros (xs : list Q) :
  Forall (fun x => x = 0) xs -> fold_left Qplus xs 0 = 0.
Proof.
  induction 1 as [|x xs -> _ IH]; [reflexivity|]. cbn [fold_left]. exact IH.
Qed.

Lemma mean_or_0_zeros (xs : list Q) : Forall (fun x => x = 0) xs -> mean_or_0 xs == 0.
Proof.
  intros Hall. destruct xs as [|x xs]; [reflexivity|].
  unfold mean_or_0, Py.np_mean, Py.sum. rewrite (sum_loop_zeros _ Hall).
  unfold Qdiv. apply Qmult_0_l.
Qed.

Lemma quality_score_comp (c r r' d : Q) :
  r == r' -> _calculate_quality_score c r d == _calculate_quality_score c r' d.
Proof.
  intros Hr. rewrite !quality_score_as_computed. unfold Spec.docSubScore.
  case_min_max; lra.
Qed.

Section EmptyRecords.

Variable nlp_analyses : list analysis.
Hypothesis some_file : nlp_analyses <> [].
Hypothesis all_empty : Forall (fun a => a = initial_results (filename a)) nlp_analyses.

Lemma empty_record_fields (a : analysis) :
  a ∈ nlp_analyses ->
  metrics a = ∅ /\ smells a = [] /\ naming_truthy a = false /\ semantic_truthy a = false.
Proof.
  intros Ha. rewrite Forall_forall in all_empty. rewrite (all_empty a Ha).
  repeat split.
Qed.

Lemma empty_records_no_smells : total_smells_of nlp_analyses = 0%nat.
Proof.
  rewrite total_smells_spec. unfold all_smells.
  assert (H : forall l : list analysis,
             (forall a, a ∈ l -> smells a = []) -> concat (map smells l) = []).
  { induction l as [|a l IH]; intros Hl; [reflexivity|].
    cbn [map concat]. rewrite (Hl a) by constructor.
    apply IH. intros b Hb. apply Hl. constructor. exact Hb. }
  rewrite H; [reflexivity|]. intros a Ha. apply (empty_record_fields a Ha).
Qed.

Lemma empty_records_filter (P : analysis -> Prop) `{!forall a, Decision (P a)} :
  (forall a, metrics a = ∅ -> naming_truthy a = false -> semantic_truthy a = false -> ~ P a) ->
  filter P nlp_analyses = [].
Proof.
  intros HP. destruct (filter P nlp_analyses) as [|a l] eqn:E; [reflexivity|].
  assert (Hin : a ∈ filter P nlp_analyses) by (rewrite E; constructor).
  apply list_elem_of_filter in Hin as [HPa Ha].
  destruct (empty_record_fields a Ha) as (Hm & _ & Hn & Hs).
  destruct (HP a Hm Hn Hs HPa).
Qed.

Lemma empty_records_column (k : string) :
  Forall (fun x => x = 0) (map (fun a => get0 (metrics a) k) nlp_analyses).
Proof.
  apply Forall_map, Forall_forall. intros a Ha.
  destruct (empty_record_fields a Ha) as (Hm & _). unfold get0. rewrite Hm, lookup_empty.
  reflexivity.
Qed.

(** X10. A non-empty batch made only of records of unsupported files (no
    metrics, no smells) scores 70.0 for quality, 0 for maintainability and
    risk, 42.0 overall, and is graded F. *)
Theorem unsupported_only_batch
    (repo : repo_data) (commits : option (list commit_summary))
    (prs : option (list pr_summary)) (now : string) :
  let k := calculate_kpis nlp_analyses repo commits prs now in
  quality k !! "quality_score" = Some 70
  /\ maintainability k !! "maintainability_index" = Some 0
  /\ maintainability k !! "technical_debt_hours" = Some 0
  /\ security k !! "risk_score" = Some 0
  /\ overall_health_score (summary k) = 42
  /\ grade (summary k) = "F".
Proof.
  cbn zeta.
  assert (Hq : _calculate_quality_kpis nlp_analyses !! "quality_score" = Some 70).
  { unfold _calculate_quality_kpis. rewrite lookup_insert_eq. f_equal.
    transitivity (Py.round 70 1); [apply round_comp | vm_compute; reflexivity].
    unfold avg_complexity_of, smell_density_of, total_lines_of, avg_comment_ratio_of.
    rewrite empty_records_filter, empty_records_no_smells.
    2:{ intros a Hm _ _. unfold has_key. rewrite Hm, lookup_empty.
        intros H. apply bool_decide_eq_true in H. destruct H as [? H]. discriminate H. }
    unfold Py.sum. rewrite (sum_loop_zeros _ (empty_records_column "total_lines")).
    rewrite (quality_score_comp _ _ 0) by apply mean_or_0_zeros, empty_records_column.
    vm_compute. reflexivity. }
  assert (Hm : _calculate_maintainability_kpis nlp_analyses
               = {[ "maintainability_index" := 0; "naming_consistency" := 0;
                    "vocabulary_richness" := 0; "technical_debt_hours" := 0;
                    "technical_debt_days" := 0 ]}).
  { unfold _calculate_maintainability_kpis, count_max_complexity_above.
    rewrite empty_records_no_smells.
    rewrite !empty_records_filter; [reflexivity| | | |].
    - intros a Hma _ _. unfold get0. rewrite Hma, lookup_empty. discriminate.
    - intros a _ _ Hs. rewrite Hs. discriminate.
    - intros a _ Hn _. rewrite Hn. discriminate.
    - intros a Hma _ _. unfold has_key. rewrite Hma, lookup_empty.
      intros H. apply bool_decide_eq_true in H. destruct H as [? H]. discriminate H. }
  assert (Hs : _calculate_security_kpis nlp_analyses !! "risk_score" = Some 0).
  { unfold _calculate_security_kpis, count_max_complexity_above.
    rewrite count_security_issues_spec, empty_records_no_smells.
    rewrite empty_records_filter.
    2:{ intros a Hma _ _. unfold get0. rewrite Hma, lookup_empty. discriminate. }
    assert (Hall : all_smells nlp_analyses = []).
    { pose proof empty_records_no_smells as H0. rewrite total_smells_spec in H0.
      destruct (all_smells nlp_analyses); [reflexivity|discriminate]. }
    rewrite Hall. reflexivity. }
  assert (Ho : _calculate_overall_score (_calculate_quality_kpis nlp_analyses)
                 (_calculate_maintainability_kpis nlp_analyses) = 42).
  { unfold _calculate_overall_score, get0. rewrite Hq, Hm. vm_compute. reflexivity. }
  revert Hq Hm Hs Ho. pose proof some_file as Hne. revert Hne.
  generalize nlp_analyses. intros [|a0 l] Hne Hq Hm Hs Ho; [contradiction|].
  cbn [calculate_kpis quality maintainability security summary overall_health_score grade].
  rewrite Ho, Hm. repeat split; try assumption; reflexivity.
Qed.

End EmptyRecords.

Lemma unsupported_only_batch_witness :
  overall_health_score
    (summary (calculate_kpis [initial_results "README.md"; initial_results "Dockerfile"]
                             no_repo None None "t")) = 42.
Proof.
  apply (unsupported_only_batch [initial_results "README.md"; initial_results "Dockerfile"]).
  - discriminate.
  - repeat constructor.
Defined.

(** ** Security and technical debt *)

Lemma filter_weaker_length {A} (P1 P2 : A -> Prop)
    `{!forall x, Decision (P1 x)} `{!forall x, Decision (P2 x)} (l : list A) :
  (forall x, P1 x -> P2 x) -> (length (filter P1 l) <= length (filter P2 l))%nat.
Proof.
  intros Himp. induction l as [|x l IH]; [reflexivity|].
  rewrite !filter_cons. destruct (decide (P1 x)) as [H1|H1].
  - rewrite decide_True by auto. cbn [length]. lia.
  - destruct (decide (P2 x)); cbn [length]; lia.
Qed.

(** X11. Security issues are a subset of the smells, each one weighs 12
    points of risk (10 as an issue, 2 as a smell), the risk score stays in
    [0,100], and it is 0 exactly when the batch has no smell and no file of
    maximum complexity above 15. *)
Theorem risk_score_composition (nlp_analyses : list analysis) :
  exists issues files smells_total : nat, exists risk : Z,
    _calculate_security_kpis nlp_analyses !! "security_issue_count" = Some (ofnat issues)
    /\ _calculate_security_kpis nlp_analyses !! "high_complexity_files" = Some (ofnat files)
    /\ _calculate_security_kpis nlp_analyses !! "risk_score" = Some (ofZ risk)
    /\ _calculate_quality_kpis nlp_analyses !! "total_code_smells" = Some (ofnat smells_total)
    /\ (issues <= smells_total)%nat
    /\ (files <= length nlp_analyses)%nat
    /\ (Z.min 100 (12 * Z.of_nat issues) <= risk <= 100)%Z
    /\ (risk = 0%Z <-> smells_total = 0%nat /\ files = 0%nat).
Proof.
  exists (count_security_issues nlp_analyses),
         (count_max_complexity_above 15 nlp_analyses),
         (total_smells_of nlp_analyses),
         (risk_score_of (count_security_issues nlp_analyses)
                        (count_max_complexity_above 15 nlp_analyses)
                        (total_smells_of nlp_analyses)).
  assert (Hle : (count_security_issues nlp_analyses <= total_smells_of nlp_analyses)%nat).
  { rewrite count_security_issues_spec, total_smells_spec. apply length_filter. }
  split; [unfold _calculate_security_kpis; lookup_lit|].
  split; [unfold _calculate_security_kpis; lookup_lit|].
  split; [unfold _calculate_security_kpis; lookup_lit|].
  split; [unfold _calculate_quality_kpis; lookup_lit|].
  split; [exact Hle|].
  split; [apply length_filter|].
  unfold risk_score_of. split; lia.
Qed.

(** X12. Technical debt is 2 hours per smell plus 8 hours per file of
    maximum complexity above 10; every file the security category counts as
    highly complex (above 15) is among those, and the debt in days is the
    hours divided by 8, to one decimal. *)
Theorem technical_debt_composition (nlp_analyses : list analysis) :
  exists hours complex_files risky_files smells_total : nat,
    _calculate_maintainability_kpis nlp_analyses !! "technical_debt_hours"
    = Some (ofnat hours)
    /\ _calculate_maintainability_kpis nlp_analyses !! "technical_debt_days"
       = Some (Py.round (ofnat hours / 8) 1)
    /\ _calculate_security_kpis nlp_analyses !! "high_complexity_files"
       = Some (ofnat risky_files)
    /\ _calculate_quality_kpis nlp_analyses !! "total_code_smells" = Some (ofnat smells_total)
    /\ complex_files
       = length (filter (fun a => 10 < get0 (metrics a) "max_complexity") nlp_analyses)
    /\ hours = (2 * smells_total + 8 * complex_files)%nat
    /\ (risky_files <= complex_files)%nat
    /\ (2 * smells_total + 8 * risky_files <= hours)%nat.
Proof.
  exists (total_smells_of nlp_analyses * 2 + count_max_complexity_above 10 nlp_analyses * 8)%nat,
         (count_max_complexity_above 10 nlp_analyses),
         (count_max_complexity_above 15 nlp_analyses),
         (total_smells_of nlp_analyses).
  assert (Hle : (count_max_complexity_above 15 nlp_analyses
                 <= count_max_complexity_above 10 nlp_analyses)%nat).
  { rewrite !count_max_complexity_above_spec. apply filter_weaker_length.
    intros a Ha. lra. }
  split; [unfold _calculate_maintainability_kpis; lookup_lit|].
  split; [unfold _calculate_maintainability_kpis; lookup_lit|].
  split; [unfold _calculate_security_kpis; lookup_lit|].
  split; [unfold _calculate_quality_kpis; lookup_lit|].
  split; [apply count_max_complexity_above_spec|].
  lia.
Qed.

(** ** Quality score: monotonicity *)

(** X13. The quality score never rises with the average complexity or the
    smell density, and never falls with the comment ratio. *)
Theorem quality_score_monotone (c c' r r' d d' : Q) :
  c <= c' -> r <= r' -> d <= d' ->
  _calculate_quality_score c' r d' <= _calculate_quality_score c r' d.
Proof.
  intros Hc Hr Hd. rewrite !quality_score_as_computed.
  unfold Spec.clamp, Spec.complexitySubScore, Spec.docSubScore, Spec.smellSubScore.
  destruct (Qle_bool c 5) eqn:E; destruct (Qle_bool c' 5) eqn:E';
    try (apply Qle_bool_iff in E); try (apply Qle_bool_iff in E');
    try (assert (5 < c) by (apply Qnot_le_lt; rewrite <- Qle_bool_iff; congruence));
    try (assert (5 < c') by (apply Qnot_le_lt; rewrite <- Qle_bool_iff; congruence));
    case_min_max; lra.
Qed.

Lemma quality_score_monotone_witness :
  _calculate_quality_score 12 (1 # 10) 40 <= _calculate_quality_score 3 (2 # 10) 5.
Proof. apply quality_score_monotone; discriminate. Defined.

(** ** The detector's output *)

Lemma flagged_loop_length {R} (g : nat -> Q -> analysis -> R)
    (predictions : list Z) (anomaly_scores : list Q) (nlp_analyses : list analysis) :
  (length (omap id (imap (fun i '(pred, score, a) =>
                            if (pred =? -1)%Z then Some (g i score a) else None)
                         (zip3 predictions anomaly_scores nlp_analyses)))
   <= Nat.min (length (filter (fun pred => pred = (-1)%Z) predictions))
              (length nlp_analyses))%nat.
Proof.
  revert g anomaly_scores nlp_analyses.
  induction predictions as [|pred ps IH]; intros g [|sc ss] [|a l];
    cbn [zip3 imap omap list_omap length]; try lia.
  rewrite filter_cons.
  specialize (IH (fun i => g (S i)) ss l).
  destruct (Z.eqb_spec pred (-1)) as [->|Hne].
  - rewrite decide_True by reflexivity. cbn [id length]. unfold compose. lia.
  - rewrite decide_False by exact Hne. cbn [id]. unfold compose. lia.
Qed.

Lemma Z_int_floor (q : Q) : 0 <= q -> Py.int q = Qfloor q.
Proof.
  destruct q as [n d]. unfold Qle. cbn. intros Hn. unfold Py.int. cbn.
  apply Z.quot_div_nonneg; lia.
Qed.

Lemma Z_int_ceiling (q : Q) : q <= 0 -> Py.int q = Qceiling q.
Proof.
  destruct q as [n d]. unfold Qle. cbn. intros Hn. unfold Py.int, Qceiling. cbn.
  rewrite <- (Z.opp_involutive n) at 1. rewrite Z.quot_opp_l by lia.
  f_equal. apply Z.quot_div_nonneg; lia.
Qed.

Lemma int_mono (p q : Q) : p <= q -> (Py.int p <= Py.int q)%Z.
Proof.
  intros Hpq. destruct (Qlt_le_dec p 0) as [Hp|Hp]; destruct (Qlt_le_dec q 0) as [Hq|Hq].
  - rewrite !Z_int_ceiling by lra. apply Qceiling_resp_le, Hpq.
  - rewrite (Z_int_ceiling p), (Z_int_floor q) by lra.
    transitivity 0%Z.
    + change 0%Z with (Qceiling 0). apply Qceiling_resp_le. lra.
    + change 0%Z with (Qfloor 0). apply Qfloor_resp_le. lra.
  - lra.
  - rewrite !Z_int_floor by lra. apply Qfloor_resp_le, Hpq.
Qed.

(** X16. The 0-100 score never rises with the raw score of the forest:
    the lower (more abnormal) the raw score, the higher the reported one. *)
Theorem normalize_score_antitone (s1 s2 : Q) :
  s1 <= s2 -> (normalize_score s2 <= normalize_score s1)%Z.
Proof.
  intros Hs. unfold normalize_score.
  assert (Hi : (Py.int ((1 - (s2 + (1 # 2))) * 100) <= Py.int ((1 - (s1 + (1 # 2))) * 100))%Z).
  { apply int_mono. lra. }
  lia.
Qed.

Lemma normalize_score_antitone_witness :
  (normalize_score (- (1 # 10)) <= normalize_score (- (4 # 10)))%Z.
Proof. apply normalize_score_antitone. discriminate. Defined.

Lemma normalize_score_nonpos (s : Q) : s <= 0 -> (50 <= normalize_score s)%Z.
Proof.
  intros Hs. unfold normalize_score.
  assert (Py.int 50 <= Py.int ((1 - (s + (1 # 2))) * 100))%Z by (apply int_mono; lra).
  change (Py.int 50) with 50%Z in *. lia.
Qed.

(** X17. The scale saturates: a raw score of -0.5 or less is reported as
    100, one of 0.5 or more as 0, and any raw score that is not positive
    (all that an isolation forest's [score_samples] returns) as 50 or
    more. *)
Theorem normalize_score_saturation (s : Q) :
  (s <= - (1 # 2) -> normalize_score s = 100%Z)
  /\ (1 # 2 <= s -> normalize_score s = 0%Z)
  /\ (s <= 0 -> (50 <= normalize_score s)%Z).
Proof.
  unfold normalize_score. repeat split; intros Hs.
  - assert (Py.int 100 <= Py.int ((1 - (s + (1 # 2))) * 100))%Z by (apply int_mono; lra).
    change (Py.int 100) with 100%Z in *. lia.
  - assert (Py.int ((1 - (s + (1 # 2))) * 100) <= Py.int 0)%Z by (apply int_mono; lra).
    change (Py.int 0) with 0%Z in *. lia.
  - assert (Py.int 50 <= Py.int ((1 - (s + (1 # 2))) * 100))%Z by (apply int_mono; lra).
    change (Py.int 50) with 50%Z in *. lia.
Qed.

(** Sorting moves no report past one of the same score. *)
Lemma insert_desc_filter (k : Z) (x : Anomaly.report) (l : list Anomaly.report) :
  filter (fun r => Anomaly.score r = k) (insert_desc x l)
  = filter (fun r => Anomaly.score r = k) (x :: l).
Proof.
  induction l as [|y l IH]; [reflexivity|]. cbn [insert_desc].
  destruct (Z.leb_spec (Anomaly.score y) (Anomaly.score x)) as [Hle|Hgt]; [reflexivity|].
  rewrite (filter_cons _ y), IH, !filter_cons.
  destruct (decide (Anomaly.score y = k)) as [Hy|Hy];
    destruct (decide (Anomaly.score x = k)) as [Hx|Hx]; try reflexivity.
  lia.
Qed.

(** X15. Sorting loses and duplicates nothing, and it is stable: the
    reports of any one score come out in the order they went in. *)
Theorem sort_by_score_desc_stable_permutation (l : list Anomaly.report) :
  Permutation (sort_by_score_desc l) l
  /\ length (sort_by_score_desc l) = length l
  /\ forall k : Z,
       filter (fun r => Anomaly.score r = k) (sort_by_score_desc l)
       = filter (fun r => Anomaly.score r = k) l.
Proof.
  split; [apply sort_by_score_desc_perm|].
  split; [apply Permutation_length, sort_by_score_desc_perm|].
  intros k. induction l as [|x l IH]; [reflexivity|].
  cbn [sort_by_score_desc foldr]. fold (sort_by_score_desc l).
  rewrite insert_desc_filter, !filter_cons, IH. reflexivity.
Qed.

Section DetectorOutput.

Variable scaler_fit_transform : matrix -> matrix.
Variable model_fit_predict : matrix -> list Z.
Variable model_score_samples : matrix -> list Q.
Variable np_std : list Q -> Q.

(** X14. There are at most as many reports as records, and at most as
    many as predictions equal to -1; when the forest flags nothing, the
    result is empty. *)
Theorem anomaly_count_bounds (nlp_analyses : list analysis) :
  let predictions :=
    model_fit_predict (scaler_fit_transform (map file_features nlp_analyses)) in
  let anomalies :=
    detect_anomalies scaler_fit_transform model_fit_predict model_score_samples np_std
                     nlp_analyses in
  (length anomalies <= length nlp_analyses)%nat
  /\ (length anomalies <= length (filter (fun pred => pred = (-1)%Z) predictions))%nat
  /\ (Forall (fun pred => pred <> (-1)%Z) predictions -> anomalies = []).
Proof.
  cbn zeta. unfold detect_anomalies.
  destruct (length nlp_analyses <? 3)%nat.
  - cbn. repeat split; lia.
  - cbn [extract_features].
    pose proof (Permutation_length
                  (sort_by_score_desc_perm
                     (flagged np_std feature_names (map file_features nlp_analyses)
                        (model_fit_predict
                           (scaler_fit_transform (map file_features nlp_analyses)))
                        (model_score_samples
                           (scaler_fit_transform (map file_features nlp_analyses)))
                        nlp_analyses))) as Hsorted.
    rewrite Hsorted. unfold flagged in *.
    pose proof (flagged_loop_length
                  (fun i score a =>
                     _create_anomaly_report np_std feature_names a
                       (nth i (map file_features nlp_analyses) []) score
                       (map file_features nlp_analyses))
                  (model_fit_predict (scaler_fit_transform (map file_features nlp_analyses)))
                  (model_score_samples (scaler_fit_transform (map file_features nlp_analyses)))
                  nlp_analyses) as Hlen.
    split; [lia|]. split; [lia|].
    intros Hnone.
    assert (Hz : filter (fun pred => pred = (-1)%Z)
                   (model_fit_predict (scaler_fit_transform (map file_features nlp_analyses)))
                 = []).
    { clear Hlen Hsorted. induction Hnone as [|p ps Hp _ IH]; [reflexivity|].
      rewrite filter_cons, decide_False by exact Hp. exact IH. }
    rewrite Hz in Hlen. apply nil_length_inv. rewrite Hsorted.
    cbn [length Nat.min] in Hlen. lia.
Qed.

(** X18. When the forest's raw scores are not positive, as those of
    [score_samples] are, every report carries a score between 50 and 100. *)
Theorem anomaly_scores_at_least_50 (nlp_analyses : list analysis) :
  Forall (fun s => s <= 0)
         (model_score_samples (scaler_fit_transform (map file_features nlp_analyses))) ->
  Forall (fun r => (50 <= Anomaly.score r <= 100)%Z)
         (detect_anomalies scaler_fit_transform model_fit_predict model_score_samples
                           np_std nlp_analyses).
Proof.
  intros Hneg. apply Forall_forall. intros r Hr.
  unfold detect_anomalies in Hr.
  destruct (length nlp_analyses <? 3)%nat; [inversion Hr|].
  cbn [extract_features] in Hr. rewrite sort_by_score_desc_perm in Hr.
  unfold flagged in Hr.
  apply list_elem_of_omap in Hr as (o & Ho & Hid). cbn in Hid. subst o.
  apply list_elem_of_lookup in Ho as [i Hi].
  rewrite list_lookup_imap in Hi.
  destruct (zip3 _ _ _ !! i) as [[[pred sc] a]|] eqn:Hz; [|discriminate].
  cbn in Hi. destruct (pred =? -1)%Z; [|discriminate].
  injection Hi as <-. apply lookup_zip3 in Hz as (_ & Hsc & _).
  cbn [_create_anomaly_report Anomaly.score].
  rewrite Forall_forall in Hneg.
  specialize (Hneg sc (list_elem_of_lookup_2 _ _ _ Hsc)).
  pose proof (normalize_score_nonpos sc Hneg) as H50.
  pose proof (normalize_score_range sc). lia.
Qed.

End DetectorOutput.

Lemma anomaly_scores_at_least_50_witness :
  Forall (fun r => (50 <= Anomaly.score r <= 100)%Z)
         (detect_anomalies standard_scale flag_far_rows toy_scores std_newton scenario1).
Proof.
  apply anomaly_scores_at_least_50.
  unfold toy_scores. apply Forall_map, Forall_forall. intros row _.
  destruct (existsb _ row); discriminate.
Defined.

(** ** The content of a report *)

Lemma attribute_tag_cases (d : Spec.dimension) (value mean std : Q) :
  fst <$> attribute (name_of d) value mean std = None
  \/ fst <$> attribute (name_of d) value mean std = tag_of_dimension d.
Proof.
  destruct (fst <$> attribute (name_of d) value mean std) as [tag|] eqn:E; [|auto].
  right. apply attribute_tag in E as (_ & dir & Hin & _).
  unfold Spec.rules in Hin.
  repeat (apply elem_of_cons in Hin as [Hin|Hin];
          [injection Hin as -> -> ->; reflexivity|]).
  inversion Hin.
Qed.

Lemma omap_sublist {A B} (g h : A -> option B) (l : list A) :
  (forall x, g x = None \/ g x = h x) -> sublist (omap g l) (omap h l).
Proof.
  intros Hgh. induction l as [|x l IH]; [constructor|].
  cbn [omap list_omap]. destruct (Hgh x) as [-> | ->].
  - destruct (h x); [constructor|]; exact IH.
  - destruct (h x); [constructor|]; exact IH.
Qed.

Lemma Z_int_ofnat (n : nat) : Py.int (ofnat n) = Z.of_nat n.
Proof. unfold Py.int, ofnat. cbn. apply Z.quot_1_r. Qed.

Section ReportContent.

Variable scaler_fit_transform : matrix -> matrix.
Variable model_fit_predict : matrix -> list Z.
Variable model_score_samples : matrix -> list Q.
Variable np_std : list Q -> Q.

(** X19. The tags of a report are either the single tag "general" or a
    non-empty selection, without repetition and always in this order, of
    size, documentation, complexity, code_smells, naming. *)
Theorem report_tags_shape (nlp_analyses : list analysis) (r : Anomaly.report) :
  r ∈ detect_anomalies scaler_fit_transform model_fit_predict model_score_samples np_std
                      nlp_analyses ->
  Anomaly.types r = ["general"]
  \/ (Anomaly.types r <> []
      /\ sublist (Anomaly.types r)
                 ["size"; "documentation"; "complexity"; "code_smells"; "naming"]
      /\ NoDup (Anomaly.types r)
      /\ "general" ∉ Anomaly.types r).
Proof.
  intros Hr. apply detect_anomalies_inv in Hr as (i & a & sc & Ha & ->).
  destruct nlp_analyses as [|a0 rest]; [discriminate|].
  destruct (report_of_batch np_std a a0 rest sc) as (_ & -> & _).
  assert (Hsub : sublist (map fst (found_for np_std a (a0 :: rest)))
                         ["size"; "documentation"; "complexity"; "code_smells"; "naming"]).
  { unfold found_for.
    change (map fst) with (fmap (M:=list) (@fst string string)).
    rewrite list_fmap_omap.
    change ["size"; "documentation"; "complexity"; "code_smells"; "naming"]
      with (omap tag_of_dimension Spec.order).
    apply omap_sublist. intros d. apply attribute_tag_cases. }
  destruct (map fst (found_for np_std a (a0 :: rest))) as [|t ts]; [left; reflexivity|].
  right. split; [discriminate|]. split; [exact Hsub|]. split.
  - eapply sublist_NoDup; [|exact Hsub]. apply (bool_decide_unpack _). reflexivity.
  - intros Hin. apply (elem_of_sublist _ _ _ Hin) in Hsub.
    revert Hsub. apply (bool_decide_unpack _). reflexivity.
Qed.

(** X20. The metric snapshot of a report is taken from the record it names:
    its line count truncated to an integer, its average complexity and
    comment ratio (0 when missing) and its number of smells. *)
Theorem report_snapshot (nlp_analyses : list analysis) (r : Anomaly.report) :
  r ∈ detect_anomalies scaler_fit_transform model_fit_predict model_score_samples np_std
                      nlp_analyses ->
  exists a,
    a ∈ nlp_analyses
    /\ Anomaly.file r = filename a
    /\ Anomaly.lines (Anomaly.metrics r) = Py.int (get0 (metrics a) "total_lines")
    /\ Anomaly.complexity (Anomaly.metrics r) = get0 (metrics a) "avg_complexity"
    /\ Anomaly.comment_ratio (Anomaly.metrics r) = get0 (metrics a) "comment_ratio"
    /\ Anomaly.smells (Anomaly.metrics r) = Z.of_nat (length (smells a)).
Proof.
  intros Hr. apply detect_anomalies_inv in Hr as (i & a & sc & Ha & ->).
  exists a. split; [eapply list_elem_of_lookup_2; exact Ha|].
  cbn. repeat split. apply Z_int_ofnat.
Qed.

End ReportContent.

Lemma report_tags_shape_witness :
  Anomaly.types big_report = ["general"]
  \/ (Anomaly.types big_report <> []
      /\ sublist (Anomaly.types big_report)
                 ["size"; "documentation"; "complexity"; "code_smells"; "naming"]
      /\ NoDup (Anomaly.types big_report)
      /\ "general" ∉ Anomaly.types big_report).
Proof.
  apply (report_tags_shape standard_scale flag_far_rows toy_scores std_newton scenario1).
  rewrite scenario1_detected. constructor.
Defined.

Lemma report_snapshot_witness :
  exists a,
    a ∈ scenario1
    /\ Anomaly.file big_report = filename a
    /\ Anomaly.lines (Anomaly.metrics big_report) = Py.int (get0 (metrics a) "total_lines")
    /\ Anomaly.complexity (Anomaly.metrics big_report) = get0 (metrics a) "avg_complexity"
    /\ Anomaly.comment_ratio (Anomaly.metrics big_report)
       = get0 (metrics a) "comment_ratio"
    /\ Anomaly.smells (Anomaly.metrics big_report) = Z.of_nat (length (smells a)).
Proof.
  apply (report_snapshot standard_scale flag_far_rows toy_scores std_newton scenario1).
  rewrite scenario1_detected. constructor.
Defined.

(** ** Lines and comments of a file *)

Lemma split_nonempty (sep : ascii) (s : string) : split sep s <> [].
Proof.
  induction s as [|c s IH]; [discriminate|]. cbn [split].
  destruct (Ascii.eqb c sep); [discriminate|].
  destruct (split sep s); [contradiction|discriminate].
Qed.

Lemma split_length (sep : ascii) (s : string) :
  length (split sep s) = S (count_char sep s).
Proof.
  induction s as [|c s IH]; [reflexivity|]. cbn [split count_char].
  destruct (Ascii.eqb c sep); cbn [length Nat.add]; [rewrite IH; reflexivity|].
  pose proof (split_nonempty sep s) as Hne.
  destruct (split sep s); [contradiction|]. exact IH.
Qed.

Lemma comment_loop_count (marker : string) (lines : list string) (n : nat) :
  fold_left (fun comment_count line =>
               if match_after_space marker line
               then (comment_count + 1)%nat else comment_count)
            lines n
  = (n + length (filter (fun l => match_after_space marker l = true) lines))%nat.
Proof.
  revert n. induction lines as [|l lines IH]; intros n; [cbn; lia|].
  cbn [fold_left]. rewrite IH, filter_cons.
  destruct (match_after_space marker l).
  - rewrite decide_True by reflexivity. cbn [length]. lia.
  - rewrite decide_False by discriminate. reflexivity.
Qed.

Lemma rstrip_keeps (c : ascii) (s : string) :
  is_space c = false -> rstrip (String c s) <> "".
Proof.
  intros Hc. cbn [rstrip]. destruct (rstrip s); [rewrite Hc|]; discriminate.
Qed.

Lemma lstrip_head (s : string) (c : ascii) (rest : string) :
  lstrip s = String c rest -> is_space c = false.
Proof.
  induction s as [|c' s IH]; [discriminate|]. cbn [lstrip].
  destruct (is_space c') eqn:E; [exact IH|]. intros [= <- _]. exact E.
Qed.

Lemma markers_known (file_ext marker : string) :
  dict_get single_line_patterns file_ext = Some marker -> marker = "#" \/ marker = "//".
Proof.
  unfold single_line_patterns. cbn [dict_get].
  repeat (destruct (String.eqb _ file_ext); [intros [= <-]; auto|]).
  discriminate.
Qed.

Lemma comment_line_not_blank (file_ext marker line : string) :
  dict_get single_line_patterns file_ext = Some marker ->
  match_after_space marker line = true ->
  Py.truthy (strip line) = true.
Proof.
  intros Hm Hmatch. unfold match_after_space in Hmatch. unfold strip.
  destruct (lstrip line) as [|c rest] eqn:E.
  - apply markers_known in Hm as [-> | ->]; discriminate.
  - pose proof (rstrip_keeps c rest (lstrip_head _ _ _ E)) as Hne.
    destruct (rstrip (String c rest)); [contradiction|reflexivity].
Qed.

Lemma comments_le_non_empty (content file_ext : string) :
  (detect_comments content file_ext
   <= length (filter (fun l => Py.truthy (strip l) = true) (split newline content)))%nat.
Proof.
  unfold detect_comments.
  destruct (dict_get single_line_patterns file_ext) as [marker|] eqn:Hm; [|lia].
  rewrite comment_loop_count. cbn [Nat.add].
  apply filter_weaker_length. intros l. apply (comment_line_not_blank file_ext marker l Hm).
Qed.

(** X21. Of any supported file: there is at least one line, one more than
    there are newline characters; comment lines are among the non-blank
    lines, and those among all lines. *)
Theorem line_counts_ordered (content file_ext : string) :
  exists total nonempty comments : nat,
    basic_metrics content file_ext !! "total_lines" = Some (ofnat total)
    /\ basic_metrics content file_ext !! "non_empty_lines" = Some (ofnat nonempty)
    /\ basic_metrics content file_ext !! "comment_lines" = Some (ofnat comments)
    /\ comments = detect_comments content file_ext
    /\ total = S (count_char newline content)
    /\ (comments <= nonempty)%nat /\ (nonempty <= total)%nat.
Proof.
  exists (length (split newline content)),
         (length (filter (fun l => Py.truthy (strip l) = true) (split newline content))),
         (detect_comments content file_ext).
  split; [unfold basic_metrics; cbn zeta; lookup_lit|].
  split; [unfold basic_metrics; cbn zeta; lookup_lit|].
  split; [unfold basic_metrics; cbn zeta; lookup_lit|].
  split; [reflexivity|]. split; [apply split_length|]. split; [|apply length_filter].
  apply comments_le_non_empty.
Qed.

(** X22. The comment ratio of a file is a number between 0 and 1. *)
Theorem comment_ratio_is_a_ratio (content file_ext : string) :
  exists ratio : Q,
    basic_metrics content file_ext !! "comment_ratio" = Some ratio
    /\ 0 <= ratio <= 1
    /\ 0 <= get0 (basic_metrics content file_ext) "comment_ratio".
Proof.
  pose proof (comments_le_non_empty content file_ext) as Hcn.
  pose proof (length_filter (fun l => Py.truthy (strip l) = true) (split newline content))
    as Hnt.
  eexists. split; [unfold basic_metrics; cbn zeta; lookup_lit|].
  assert (Hr : 0 <= Py.round (ofnat (detect_comments content file_ext)
                              / ofnat (Nat.max (length (split newline content)) 1)) 2 <= 1).
  { apply (round_range 0 1). change (inject_Z 0) with 0. change (inject_Z 1) with 1.
    set (comments := detect_comments content file_ext) in *.
    set (total := length (split newline content)) in *.
    pose proof (ofnat_nonneg comments) as H0.
    pose proof (ofnat_le comments (Nat.max total 1) ltac:(lia)) as H1.
    pose proof (ofnat_pos (Nat.max total 1) ltac:(lia)) as H2.
    split; [apply Qle_shift_div_l; lra | apply Qle_shift_div_r; lra]. }
  split; [exact Hr|].
  unfold basic_metrics, get0. cbn zeta. rewrite lookup_insert_eq. apply Hr.
Qed.

Lemma comment_text_is_comment (marker line text : string) :
  comment_text marker line = Some text -> match_after_space marker line = true.
Proof.
  unfold comment_text, match_after_space.
  destruct (String.prefix marker (lstrip line)); [reflexivity|discriminate].
Qed.

Lemma omap_length_filter {A B} (f : A -> option B) (P : A -> Prop)
    `{!forall x, Decision (P x)} (l : list A) :
  (forall x y, f x = Some y -> P x) -> (length (omap f l) <= length (filter P l))%nat.
Proof.
  intros HfP. induction l as [|x l IH]; [reflexivity|].
  cbn [omap list_omap]. rewrite filter_cons.
  destruct (f x) as [y|] eqn:E.
  - rewrite decide_True by (eapply HfP; exact E). cbn [length]. lia.
  - destruct (decide (P x)); cbn [length]; lia.
Qed.

(** X23. No more comment texts are extracted from a file than comment
    lines are counted in it, and for Rust, C, C++ and C# files, whose
    comment lines are counted, no text is ever extracted. *)
Theorem comment_texts_vs_comment_lines (content file_ext : string) :
  (length (extract_comments_text content file_ext) <= detect_comments content file_ext)%nat
  /\ (str_in file_ext ["rs"; "cpp"; "c"; "cs"] = true ->
      extract_comments_text content file_ext = []
      /\ dict_get single_line_patterns file_ext = Some "//").
Proof.
  split.
  - unfold extract_comments_text, detect_comments.
    destruct (dict_get comment_patterns file_ext) as [marker|] eqn:Hm; [|cbn; lia].
    assert (Hs : dict_get single_line_patterns file_ext = Some marker).
    { revert Hm. unfold comment_patterns, single_line_patterns. cbn [dict_get].
      repeat (destruct (String.eqb _ file_ext);
              [intros H; first [exact H | discriminate H]|]).
      discriminate. }
    rewrite Hs, comment_loop_count. cbn [Nat.add].
    apply omap_length_filter. intros l t. apply comment_text_is_comment.
  - unfold str_in, extract_comments_text. cbn [existsb]. intros Hext.
    repeat (apply orb_prop in Hext as [Hext|Hext];
            [apply String.eqb_eq in Hext as ->; split; reflexivity|]).
    discriminate Hext.
Qed.

(** ** Code smells *)

Lemma deep_nesting_loop_spec (file_ext : string) (lines : list string) (i : nat) :
  (length (deep_nesting_loop file_ext i lines) <= 1)%nat
  /\ (deep_nesting_loop file_ext i lines = []
      <-> Forall (fun l => (indent_level file_ext l <= 4)%Z) lines).
Proof.
  revert i. induction lines as [|l lines IH]; intros i; cbn [deep_nesting_loop].
  - split; [cbn; lia|]. split; [constructor|reflexivity].
  - destruct (Z.ltb_spec 4 (indent_level file_ext l)) as [Hdeep|Hok].
    + split; [cbn; lia|]. split; [discriminate|].
      intros H. inversion H; subst. lia.
    + destruct (IH (S i)) as [Hlen Hiff]. split; [exact Hlen|].
      rewrite Hiff. split; [intros H; constructor; assumption|].
      intros H. inversion H; subst. assumption.
Qed.

(** X24. The nesting check adds at most one smell to a file, and none
    exactly when no line is deeper than 4; for a Python file a line is
    deeper than 4 exactly when it starts with 20 or more whitespace
    characters, for other files when it has at least 5 more opening than
    closing braces on that one line. *)
Theorem deep_nesting_reported_once (content file_ext : string) :
  let lines := split newline content in
  (length (deep_nesting_loop file_ext 0 lines) <= 1)%nat
  /\ (deep_nesting_loop file_ext 0 lines = []
      <-> Forall (fun l => (indent_level file_ext l <= 4)%Z) lines)
  /\ (forall l, (4 < indent_level "py" l)%Z
                <-> (20 <= String.length l - String.length (lstrip l))%nat)
  /\ (forall l, file_ext <> "py" ->
                ((4 < indent_level file_ext l)%Z
                 <-> (count_char "}" l + 5 <= count_char "{" l)%nat)).
Proof.
  cbn zeta. destruct (deep_nesting_loop_spec file_ext (split newline content) 0) as [H1 H2].
  split; [exact H1|]. split; [exact H2|]. split.
  - intros l. unfold indent_level. cbn [String.eqb Ascii.eqb Bool.eqb].
    set (n := (String.length l - String.length (lstrip l))%nat).
    split; intros H.
    + destruct (le_lt_dec 20 n) as [Hn|Hn]; [exact Hn|]. exfalso.
      assert (Z.of_nat n / 4 <= 4)%Z; [|lia].
      apply Z.lt_succ_r, Z.div_lt_upper_bound; lia.
    + apply Z.lt_le_trans with (m := 5%Z); [lia|].
      apply Z.div_le_lower_bound; lia.
  - intros l Hext. unfold indent_level.
    destruct (String.eqb_spec file_ext "py") as [->|_]; [contradiction|]. lia.
Qed.

Section SmellFacts.

Variable search_function : string -> string -> option (option string).

Lemma long_function_loop_bound (file_ext : string) (lines : list string) (i : nat)
    (current_function : option string) (function_start : nat) (found : list string) :
  let declarations :=
    length (filter (fun l => is_Some (search_function file_ext l)) lines) in
  let long :=
    long_function_loop search_function file_ext i lines current_function function_start
                       found in
  (length long
   <= length found
      + (if truthy_opt current_function then declarations else declarations - 1))%nat
  /\ exists added, long = found ++ added.
Proof.
  cbn zeta. revert i current_function function_start found.
  induction lines as [|l lines IH]; intros i cf fs found; cbn [long_function_loop].
  - split; [destruct (truthy_opt cf); cbn; lia|]. exists []. symmetry. apply app_nil_r.
  - rewrite filter_cons. destruct (search_function file_ext l) as [matched|] eqn:E.
    + rewrite decide_True by (eexists; reflexivity). cbn [length].
      match goal with
      | |- context [long_function_loop _ _ _ _ matched i ?f] =>
        destruct (IH (S i) matched i f) as [Hlen [added Hadd]]
      end.
      destruct (truthy_opt cf && (50 <? i - fs)%nat) eqn:Eadd.
      * apply andb_prop in Eadd as [Hcf _]. rewrite Hcf. split.
        -- rewrite length_app in Hlen. cbn [length] in Hlen.
           destruct (truthy_opt matched); lia.
        -- eexists. rewrite Hadd, <- app_assoc. reflexivity.
      * split; [|exists added; exact Hadd].
        destruct (truthy_opt matched), (truthy_opt cf); lia.
    + rewrite decide_False by (intros [? H]; discriminate H).
      apply IH.
Qed.

(** X25. The long-function check adds fewer smells than there are function
    declarations in the file (the last one is never measured): none for a
    file with at most one declaration, and none at all for the extensions
    without a declaration pattern; the smells already recorded are kept. *)
Theorem long_function_smells_bound (content file_ext : string) (results : analysis) :
  let lines := split newline content in
  let declarations :=
    length (filter (fun l => is_Some (search_function file_ext l)) lines) in
  exists long deep,
    smells (detect_code_smells search_function content file_ext results)
    = smells results ++ long ++ deep
    /\ (length long <= declarations - 1)%nat
    /\ (str_in file_ext function_pattern_exts = false -> long = [])
    /\ (length deep <= 1)%nat.
Proof.
  cbn zeta. unfold detect_code_smells. cbn [smells].
  eexists _, _. split; [reflexivity|].
  split; [|split].
  - destruct (str_in file_ext function_pattern_exts); [|cbn; lia].
    destruct (long_function_loop_bound file_ext (split newline content) 0 None 0 [])
      as [Hlen _]. cbn [truthy_opt length Nat.add] in Hlen. exact Hlen.
  - intros ->. reflexivity.
  - apply deep_nesting_loop_spec.
Qed.

End SmellFacts.

(** ** Naming conventions *)

Lemma lower_not_upper (c : ascii) : is_lower_char c && is_upper_char c = false.
Proof.
  unfold is_lower_char, is_upper_char.
  destruct (Nat.leb_spec 97 (nat_of_ascii c)), (Nat.leb_spec (nat_of_ascii c) 122),
    (Nat.leb_spec 65 (nat_of_ascii c)), (Nat.leb_spec (nat_of_ascii c) 90);
    cbn; try reflexivity; lia.
Qed.

Lemma pascal_has_upper (i : string) : is_pascal i = true -> any_upper i = true.
Proof.
  destruct i as [|c rest]; [discriminate|]. cbn [is_pascal].
  intros H. apply andb_prop in H as [Hc _].
  unfold any_upper. cbn [list_ascii_of_string existsb]. rewrite Hc. reflexivity.
Qed.

Lemma conventions_exclusive (i : string) :
  (is_snake i = true -> is_camel i = false /\ is_pascal i = false)
  /\ (is_camel i = true -> is_pascal i = false).
Proof.
  split.
  - unfold is_snake, islower. intros H.
    apply andb_prop in H as [_ H]. apply andb_prop in H as [_ H].
    apply negb_true_iff in H. split.
    + destruct i as [|c rest]; [reflexivity|]. cbn [is_camel]. rewrite H. apply andb_false_r.
    + destruct (is_pascal i) eqn:E; [|reflexivity].
      apply pascal_has_upper in E. congruence.
  - destruct i as [|c rest]; [reflexivity|]. cbn [is_camel is_pascal]. intros H.
    apply andb_prop in H as [Hc _].
    pose proof (lower_not_upper c) as Hx. rewrite Hc in Hx. cbn in Hx. rewrite Hx.
    reflexivity.
Qed.

Lemma count_cons {A} (f : A -> bool) (x : A) (l : list A) :
  length (filter (fun y => f y = true) (x :: l))
  = ((if f x then 1 else 0) + length (filter (fun y => f y = true) l))%nat.
Proof.
  rewrite filter_cons. destruct (f x).
  - rewrite decide_True by reflexivity. reflexivity.
  - rewrite decide_False by discriminate. reflexivity.
Qed.

Lemma exclusive_counts (l : list string) :
  (length (filter (fun i => is_snake i = true) l)
   + length (filter (fun i => is_camel i = true) l)
   + length (filter (fun i => is_pascal i = true) l) <= length l)%nat.
Proof.
  induction l as [|i l IH]; [reflexivity|]. rewrite !count_cons. cbn [length].
  destruct (conventions_exclusive i) as [Hs Hc].
  destruct (is_snake i) eqn:Es.
  - destruct (Hs eq_refl) as [-> ->]. lia.
  - destruct (is_camel i) eqn:Ec.
    + rewrite (Hc eq_refl). lia.
    + destruct (is_pascal i); lia.
Qed.

Lemma share_range (m n : nat) :
  (m <= n)%nat -> (0 < n)%nat -> 0 <= Py.round (ofnat m / ofnat n) 2 <= 1.
Proof.
  intros Hmn Hn. apply (round_range 0 1).
  change (inject_Z 0) with 0. change (inject_Z 1) with 1.
  pose proof (ofnat_nonneg m). pose proof (ofnat_le m n Hmn). pose proof (ofnat_pos n Hn).
  split; [apply Qle_shift_div_l; lra | apply Qle_shift_div_r; lra].
Qed.

Lemma share_mono (m m' n : nat) :
  (m <= m')%nat -> (0 < n)%nat ->
  Py.round (ofnat m / ofnat n) 2 <= Py.round (ofnat m' / ofnat n) 2.
Proof.
  intros Hm Hn. apply round_mono.
  pose proof (ofnat_le m m' Hm). pose proof (ofnat_pos n Hn).
  unfold Qdiv. apply Qmult_le_compat_r; [assumption|].
  apply Qlt_le_weak, Qinv_lt_0_compat. assumption.
Qed.

(** X26. When the naming profile is written: an identifier counts for at
    most one of the three conventions; the three ratios and the consistency
    score lie in [0,1]; the consistency score is the largest of the three
    ratios; and the dominant convention is one of the three names, the
    earliest of snake_case, camelCase, PascalCase on a tie. *)
Theorem naming_profile_facts (identifiers : list string) (naming : gmap string Q)
    (dominant : string) :
  analyze_naming_conventions identifiers = NamingUpdated naming dominant ->
  exists snake camel pascal : nat,
    let total := length identifiers in
    let ratio (n : nat) := Py.round (ofnat n / ofnat total) 2 in
    (snake + camel + pascal <= total)%nat
    /\ naming !! "snake_case_ratio" = Some (ratio snake)
    /\ naming !! "camel_case_ratio" = Some (ratio camel)
    /\ naming !! "pascal_case_ratio" = Some (ratio pascal)
    /\ naming !! "consistency_score"
       = Some (ratio (Nat.max snake (Nat.max camel pascal)))
    /\ 0 <= ratio (Nat.max snake (Nat.max camel pascal)) <= 1
    /\ ratio snake <= ratio (Nat.max snake (Nat.max camel pascal))
    /\ ratio camel <= ratio (Nat.max snake (Nat.max camel pascal))
    /\ ratio pascal <= ratio (Nat.max snake (Nat.max camel pascal))
    /\ dominant = (if (snake <? camel)%nat
                   then if (camel <? pascal)%nat then "PascalCase" else "camelCase"
                   else if (snake <? pascal)%nat then "PascalCase" else "snake_case").
Proof.
  unfold analyze_naming_conventions.
  destruct identifiers as [|i0 l] eqn:E; [discriminate|]. rewrite <- E.
  destruct (str_in "" identifiers); [discriminate|].
  set (s := length (filter (fun i => is_snake i = true) identifiers)).
  set (c := length (filter (fun i => is_camel i = true) identifiers)).
  set (p := length (filter (fun i => is_pascal i = true) identifiers)).
  assert (Hdom : max_by_count [("camelCase", c); ("PascalCase", p)] ("snake_case", s)
                 = (if (s <? c)%nat
                    then if (c <? p)%nat then "PascalCase" else "camelCase"
                    else if (s <? p)%nat then "PascalCase" else "snake_case",
                    Nat.max s (Nat.max c p))).
  { unfold max_by_count. cbn [fold_left fst snd].
    destruct (Nat.ltb_spec s c); cbn [fst snd];
      [destruct (Nat.ltb_spec c p) | destruct (Nat.ltb_spec s p)];
      f_equal; lia. }
  cbn zeta. rewrite Hdom. cbn [fst snd].
  intros [= <- <-]. exists s, c, p.
  pose proof (exclusive_counts identifiers) as Hex. fold s c p in Hex.
  assert (Hpos : (0 < length identifiers)%nat) by (rewrite E; cbn; lia).
  split; [exact Hex|].
  split; [lookup_lit|]. split; [lookup_lit|]. split; [lookup_lit|]. split; [lookup_lit|].
  split; [apply share_range; lia|].
  split; [apply share_mono; lia|]. split; [apply share_mono; lia|].
  split; [apply share_mono; lia|]. reflexivity.
Qed.

Lemma naming_profile_facts_witness :
  exists naming dominant,
    analyze_naming_conventions ["get_user"; "userName"; "parse_all"; "Foo"]
    = NamingUpdated naming dominant
    /\ dominant = "snake_case"
    /\ naming !! "consistency_score" = Some (1 # 2).
Proof.
  eexists _, _. split; [reflexivity|].
  destruct (naming_profile_facts ["get_user"; "userName"; "parse_all"; "Foo"] _ _ eq_refl)
    as (s & c & p & _).
  split; vm_compute; reflexivity.
Defined.

Lemma no_convention_counts (identifiers : list string) :
  Forall (fun i => any_upper i = false /\ contains "_" i = false) identifiers ->
  filter (fun i => is_snake i = true) identifiers = []
  /\ filter (fun i => is_camel i = true) identifiers = []
  /\ filter (fun i => is_pascal i = true) identifiers = [].
Proof.
  induction 1 as [|i l [Hup Hus] _ (IHs & IHc & IHp)]; [repeat split|].
  rewrite !filter_cons, IHs, IHc, IHp.
  assert (Hs : is_snake i = false) by (unfold is_snake; rewrite Hus; reflexivity).
  assert (Hc : is_camel i = false).
  { destruct i as [|c rest]; [reflexivity|]. cbn [is_camel]. rewrite Hup.
    apply andb_false_r. }
  assert (Hp : is_pascal i = false).
  { destruct (is_pascal i) eqn:E; [|reflexivity].
    apply pascal_has_upper in E. congruence. }
  rewrite Hs, Hc, Hp. rewrite !decide_False by discriminate. repeat split.
Qed.

(** X27. Identifiers without an uppercase letter and without an underscore
    ([count], [x1], [main]) belong to no convention: a file that has only
    such identifiers gets the dominant convention snake_case with a
    consistency score of 0. *)
Theorem plain_identifiers_score_zero (identifiers : list string) :
  identifiers <> [] ->
  Forall (fun i => i <> "" /\ any_upper i = false /\ contains "_" i = false) identifiers ->
  analyze_naming_conventions identifiers
  = NamingUpdated {[ "snake_case_ratio" := 0; "camel_case_ratio" := 0;
                     "pascal_case_ratio" := 0; "consistency_score" := 0 ]}
                  "snake_case".
Proof.
  intros Hne Hall. unfold analyze_naming_conventions.
  destruct identifiers as [|i0 l] eqn:E; [contradiction|]. rewrite <- E in *.
  assert (Hempty : str_in "" identifiers = false).
  { destruct (str_in "" identifiers) eqn:Es; [|reflexivity].
    apply str_in_elem in Es. rewrite Forall_forall in Hall.
    destruct (Hall "" Es) as [Hnot _]. contradiction. }
  rewrite Hempty.
  destruct (no_convention_counts identifiers) as (-> & -> & ->).
  { eapply Forall_impl; [exact Hall|]. intros i (_ & H1 & H2). auto. }
  unfold max_by_count. cbn [length fold_left fst snd Nat.ltb Nat.leb].
  assert (Hz : Py.round (ofnat 0 / ofnat (length identifiers)) 2 = 0).
  { transitivity (Py.round 0 2); [apply round_comp | reflexivity].
    unfold Qdiv. apply Qmult_0_l. }
  rewrite Hz. reflexivity.
Qed.

Lemma plain_identifiers_score_zero_witness :
  analyze_naming_conventions ["count"; "x1"; "main"; "count"]
  = NamingUpdated {[ "snake_case_ratio" := 0; "camel_case_ratio" := 0;
                     "pascal_case_ratio" := 0; "consistency_score" := 0 ]}
                  "snake_case".
Proof.
  apply plain_identifiers_score_zero; [discriminate|].
  repeat constructor; discriminate.
Defined.

(** ** Cyclomatic complexity of a Python file *)

Lemma max_loop_spec (rest : list (string * Z)) (m : Z) :
  let r := fold_left (fun m b' => if (m <? b'.2)%Z then b'.2 else m) rest m in
  (m <= r)%Z /\ Forall (fun b => (b.2 <= r)%Z) rest
  /\ (r = m \/ r ∈ map snd rest).
Proof.
  cbn zeta. revert m. induction rest as [|b rest IH]; intros m; cbn [fold_left map].
  - split; [lia|]. split; [constructor|]. left. reflexivity.
  - destruct (IH (if (m <? b.2)%Z then b.2 else m)) as (Hle & Hall & Hin).
    destruct (Z.ltb_spec m b.2) as [Hlt|Hge].
    + split; [lia|]. split; [constructor; [exact Hle|exact Hall]|].
      right. destruct Hin as [-> | Hin]; [constructor|]. constructor. exact Hin.
    + split; [exact Hle|]. split; [constructor; [lia|exact Hall]|].
      destruct Hin as [Hin|Hin]; [left; exact Hin|]. right. constructor. exact Hin.
Qed.

Lemma max_complexity_of_spec (b : string * Z) (rest : list (string * Z)) :
  Forall (fun b' => (b'.2 <= max_complexity_of (b :: rest))%Z) (b :: rest)
  /\ max_complexity_of (b :: rest) ∈ map snd (b :: rest).
Proof.
  unfold max_complexity_of. destruct (max_loop_spec rest b.2) as (Hle & Hall & Hin).
  split; [constructor; assumption|].
  cbn [map]. destruct Hin as [-> | Hin]; [constructor|]. constructor. exact Hin.
Qed.

Lemma sum_loop_Z_le (hi : Z) (blocks : list (string * Z)) (acc : Q) :
  Forall (fun b => (b.2 <= hi)%Z) blocks ->
  fold_left Qplus (map (fun b => ofZ b.2) blocks) acc
  <= acc + inject_Z hi * ofnat (length blocks).
Proof.
  intros Hall. rewrite <- (length_map (fun b : string * Z => ofZ b.2)).
  apply sum_loop_le. apply Forall_map. eapply Forall_impl; [exact Hall|].
  intros b Hb. unfold ofZ. rewrite <- Zle_Qle. exact Hb.
Qed.

(** X28. For a Python file with at least one block: the average complexity
    recorded is at most the maximum recorded, which is the complexity of
    one of the blocks and at least that of each; one "High complexity" smell
    is added per block above 10; and the file has such a smell exactly when
    its maximum complexity is above 10, the limit at which it counts for
    technical debt. *)
Theorem complexity_record_facts (blocks : list (string * Z)) (results : analysis) :
  blocks <> [] ->
  let r := record_complexity blocks results in
  exists (avg : Q) (highest : Z) (added : list string),
    metrics r !! "avg_complexity" = Some avg
    /\ metrics r !! "max_complexity" = Some (ofZ highest)
    /\ avg <= ofZ highest
    /\ highest ∈ map snd blocks
    /\ Forall (fun b => (b.2 <= highest)%Z) blocks
    /\ smells r = smells results ++ added
    /\ length added = length (filter (fun b => (10 < b.2)%Z) blocks)
    /\ (added <> [] <-> 10 < get0 (metrics r) "max_complexity").
Proof.
  intros Hne. destruct blocks as [|b rest] eqn:E; [contradiction|]. rewrite <- E.
  assert (Hmax : Forall (fun b' => (b'.2 <= max_complexity_of blocks)%Z) blocks
                 /\ max_complexity_of blocks ∈ map snd blocks).
  { rewrite E. apply max_complexity_of_spec. }
  destruct Hmax as [Hall Hin].
  assert (Hr : record_complexity blocks results
               = {| filename := filename results;
                    metrics := <["max_complexity" := ofZ (max_complexity_of blocks)]>
                                 (<["avg_complexity" :=
                                      Py.round (Py.sum (map (fun b => ofZ b.2) blocks)
                                                / ofnat (length blocks)) 2]>
                                    (metrics results));
                    smells := smells results
                              ++ map (fun b => "High complexity in " +:+ b.1 +:+ ": "
                                               +:+ pretty b.2)
                                     (filter (fun b => (10 < b.2)%Z) blocks);
                    naming := naming results;
                    dominant_convention := dominant_convention results;
                    documentation := documentation results; semantic := semantic results;
                    most_common_terms := most_common_terms results;
                    error := error results |}).
  { rewrite E. reflexivity. }
  cbn zeta. rewrite Hr. cbn [metrics smells].
  eexists _, _, _.
  split; [rewrite lookup_insert_ne by discriminate; apply lookup_insert_eq|].
  split; [apply lookup_insert_eq|].
  split; [|split; [exact Hin|split; [exact Hall|split; [reflexivity|split]]]].
  - eapply Qle_trans; [|apply Qle_lteq; right; apply (round_integer _ 2)].
    apply round_mono. unfold ofZ.
    apply Qle_shift_div_r; [apply ofnat_pos; rewrite E; cbn; lia|].
    unfold Py.sum. eapply Qle_trans; [apply (sum_loop_Z_le _ _ _ Hall)|]. lra.
  - apply length_map.
  - unfold get0. rewrite lookup_insert_eq. cbn [default]. unfold ofZ, id.
    change 10 with (inject_Z 10). rewrite <- Zlt_Qlt. split.
    + intros Hadded.
      destruct (filter (fun b => (10 < b.2)%Z) blocks) as [|b1 l1] eqn:Ef;
        [exfalso; apply Hadded; reflexivity|].
      assert (Hb1 : b1 ∈ filter (fun b => (10 < b.2)%Z) blocks) by (rewrite Ef; constructor).
      apply list_elem_of_filter in Hb1 as [H10 Hb1].
      rewrite Forall_forall in Hall. specialize (Hall b1 Hb1). lia.
    + intros H10. apply list_elem_of_fmap in Hin as (b1 & Heq & Hb1).
      assert (Hf : b1 ∈ filter (fun b => (10 < b.2)%Z) blocks).
      { apply list_elem_of_filter. split; [lia|exact Hb1]. }
      destruct (filter (fun b => (10 < b.2)%Z) blocks); [inversion Hf|cbn; discriminate].
Qed.

Lemma complexity_record_facts_witness :
  exists (avg : Q) (highest : Z) (added : list string),
    metrics (record_complexity [("parse", 14%Z); ("main", 3%Z)] (initial_results "a.py"))
    !! "avg_complexity" = Some avg
    /\ avg <= ofZ highest
    /\ length added = 1%nat.
Proof.
  destruct (complexity_record_facts [("parse", 14%Z); ("main", 3%Z)]
                                    (initial_results "a.py"))
    as (avg & highest & added & Havg & _ & Hle & _ & _ & _ & Hlen & _); [discriminate|].
  exists avg, highest, added. split; [exact Havg|]. split; [exact Hle|exact Hlen].
Defined.

(** ** From fetched files to the report *)

Section Pipeline.

Variable analyze_supported : analysis -> string -> string -> bool -> analysis.
Variable scaler_fit_transform : matrix -> matrix.
Variable model_fit_predict : matrix -> list Z.
Variable model_score_samples : matrix -> list Q.
Variable np_std : list Q -> Q.

(** X29. A repository of which one or two files were fetched, of any
    extension and content, gets a full KPI report (every file counted, a
    letter grade, a timestamp) but never an anomaly. *)
Theorem small_repository_report
    (important_files : list FileData.t) (repo : repo_data)
    (commits : option (list commit_summary)) (prs : option (list pr_summary))
    (now : string) :
  important_files <> [] ->
  (length important_files < 3)%nat ->
  let nlp_analyses := nlp_analyses_of analyze_supported important_files in
  let s := summary (calculate_kpis nlp_analyses repo commits prs now) in
  detect_code_anomalies scaler_fit_transform model_fit_predict model_score_samples
                        np_std nlp_analyses = []
  /\ analyzed_files s = length important_files
  /\ grade s = _score_to_grade (overall_health_score s)
  /\ grade s <> "N/A"
  /\ timestamp s = Some now.
Proof.
  intros Hne Hfew. cbn zeta.
  assert (Hlen : length (nlp_analyses_of analyze_supported important_files)
                 = length important_files).
  { rewrite nlp_analyses_of_map. apply length_map. }
  split.
  - unfold detect_code_anomalies, detect_anomalies. rewrite Hlen.
    apply Nat.ltb_lt in Hfew. rewrite Hfew. reflexivity.
  - destruct (nlp_analyses_of analyze_supported important_files) as [|a l] eqn:E.
    + destruct important_files; [contradiction|discriminate Hlen].
    + cbn [calculate_kpis summary analyzed_files grade timestamp overall_health_score].
      rewrite <- Hlen. repeat split. apply grade_not_na.
Qed.

End Pipeline.

Lemma small_repository_report_witness :
  detect_code_anomalies standard_scale flag_far_rows toy_scores std_newton
    (nlp_analyses_of (fun results _ _ _ => results)
       [{| FileData.path := "src/app.py"; FileData.name := "app.py";
           FileData.content := "print(1)" |};
        {| FileData.path := "README.md"; FileData.name := "README.md";
           FileData.content := "# gitpro" |}]) = [].
Proof.
  apply (small_repository_report (fun results _ _ _ => results) standard_scale
           flag_far_rows toy_scores std_newton _ no_repo None None "t").
  - discriminate.
  - cbn. lia.
Defined.
